(** * PdfPreview: the interactive document viewer

    A shallow embedding of the [PdfPreview] React component (the version
    with book mode and interactive zoom) and proofs about its pagination,
    flip animation, viewport transform, gesture handling and thumbnail
    loading.

    Conventions of the embedding.
    - JavaScript numbers that hold page and spread indices are modelled
      as [Z]; numbers that hold pixels and the zoom factor are modelled as
      exact rationals [Q], and [===] on them as [Qeq_bool].  Rounding of
      IEEE doubles is therefore abstracted away; division by zero (which
      gives [Infinity] or [NaN] in JavaScript and [0] in [Q]) is kept out
      of the statements by asking for a container of positive size and a
      positive zoom where a quotient is used.
    - Every [useState] cell and every [useRef] cell is a field of [State];
      an event handler is a function [State -> State] that performs all
      the updates the handler queues, in order, each updater function
      being run once.
    - [contentRef.current] is an argument [option DOMRect] of the handlers
      that read it: [None] is the detached ref, [Some r] is the bounding
      client rectangle of the mounted container.
    - A pending [setTimeout] is part of the state: the flip timer as
      [flipTimeoutRef] (with the value of [totalSpreads] captured by the
      callback), the 50 ms drag-end timers as a counter.
    - The wheel listener is part of the state too: the effect that
      registers it runs at mount only and registers nothing when the
      container is absent, that is when the component is mounted without
      a file name.
    - The props [projectId] and [filename] enter where the code reads
      them: as the flag [projectId && filename] of the callbacks and in
      the dependency list of the effect that loads thumbnails.
    - [error] only selects what is rendered and is left out. *)

From Stdlib Require Import ZArith QArith Qminmax Qround Qabs Lia Lqa.
From stdpp Require Import gmap strings pretty.

Local Open Scope Z_scope.

(** ** JavaScript helpers *)

(** [a < b] on numbers. *)
Definition Qltb (a b : Q) : bool :=
  match (a ?= b)%Q with Lt => true | _ => false end.

(** [Math.floor (n / 2)] and [Math.ceil (n / 2)] on an integer [n]. *)
Definition floor_half (n : Z) : Z := Qfloor (inject_Z n / 2).
Definition ceil_half (n : Z) : Z := Qceiling (inject_Z n / 2).

(** Truthiness of a page number or [null], and of a string or
    [undefined]. *)
Definition truthy (o : option Z) : bool :=
  match o with
  | Some n => negb (n =? 0)
  | None => false
  end.

Definition truthy_str (o : option string) : bool :=
  match o with
  | Some s => negb (String.eqb s "")
  | None => false
  end.

(** [a || b] on page numbers. *)
Definition js_or (a b : option Z) : option Z :=
  if truthy a then a else b.

(** ** Data *)

Definition MIN_ZOOM : Q := 1.
Definition MAX_ZOOM : Q := 8.
Definition ZOOM_STEP : Q := 3 # 10.

Inductive ViewMode := single | book.
Inductive Flip := next | prev.
Inductive DragMode := drag_pan | drag_select.

#[global] Instance ViewMode_eq_dec : EqDecision ViewMode.
Proof. solve_decision. Defined.
#[global] Instance Flip_eq_dec : EqDecision Flip.
Proof. solve_decision. Defined.
#[global] Instance DragMode_eq_dec : EqDecision DragMode.
Proof. solve_decision. Defined.

Record Point := mkPoint { pt_x : Q; pt_y : Q }.

Definition origin : Point := mkPoint 0 0.

(** Componentwise equality of numbers. *)
Definition Point_eq (p q : Point) : Prop :=
  (pt_x p == pt_x q)%Q /\ (pt_y p == pt_y q)%Q.

(** The selection rectangle, in pixels relative to the container. *)
Record SelectionRect := mkSel {
  startX : Q; startY : Q;
  sel_x : Q; sel_y : Q;
  sel_w : Q; sel_h : Q
}.

(** What [getBoundingClientRect] returns for the container. *)
Record DOMRect := mkRect {
  rect_left : Q; rect_top : Q;
  rect_width : Q; rect_height : Q
}.

Definition rect_positive (r : DOMRect) : bool :=
  Qltb 0 (rect_width r) && Qltb 0 (rect_height r).

Record MouseEvent := mkMouse {
  clientX : Q; clientY : Q;
  ctrlKey : bool; metaKey : bool
}.

Record WheelEvent := mkWheel {
  wheelX : Q; wheelY : Q;
  deltaY : Q
}.

(** A spread of the book: [null] is [None]. *)
Record Spread := mkSpread { sp_left : option Z; sp_right : option Z }.

(** The live flip timer: its direction and the [totalSpreads] its callback
    closed over. *)
Record FlipTimer := mkTimer { tm_dir : Flip; tm_totalSpreads : Z }.

Record State := mkState {
  currentPage : Z;
  totalPages : Z;
  pageCache : gmap Z string;
  viewMode : ViewMode;
  flipping : option Flip;
  flipTimeoutRef : option FlipTimer;
  zoom : Q;
  pan : Point;
  isDragging : bool;
  selectionRect : option SelectionRect;
  dragStartRef : Point;
  panStartRef : Point;
  didDragRef : bool;
  dragModeRef : option DragMode;
  currentSpread : Z;
  dragEndTimers : nat;
  loading : bool;
  wheelListener : bool
}.

(** The state of a freshly mounted component.  The effect that registers
    the wheel handler runs once, at mount: it finds the container, and
    registers the handler on it, exactly when the component is mounted
    with a file name (without one only the placeholder is rendered).  The
    file name becoming empty later, which removes the container, is not
    among the events modelled. *)
Definition mounted (withFile : bool) : State :=
  {| currentPage := 1; totalPages := 0; pageCache := ∅; viewMode := book;
     flipping := None; flipTimeoutRef := None;
     zoom := 1; pan := origin; isDragging := false; selectionRect := None;
     dragStartRef := origin; panStartRef := origin; didDragRef := false;
     dragModeRef := None; currentSpread := 0; dragEndTimers := 0;
     loading := true; wheelListener := withFile |}.

(** Mounted with a file selected, and mounted without one, as the pages
    of this repository mount the viewer. *)
Definition initial : State := mounted true.
Definition initialEmpty : State := mounted false.

(** *** Setters *)

Definition setCurrentPage (v : Z) (s : State) : State :=
  mkState v (totalPages s) (pageCache s) (viewMode s) (flipping s)
    (flipTimeoutRef s) (zoom s) (pan s) (isDragging s) (selectionRect s)
    (dragStartRef s) (panStartRef s) (didDragRef s) (dragModeRef s)
    (currentSpread s) (dragEndTimers s) (loading s) (wheelListener s).

Definition setTotalPages (v : Z) (s : State) : State :=
  mkState (currentPage s) v (pageCache s) (viewMode s) (flipping s)
    (flipTimeoutRef s) (zoom s) (pan s) (isDragging s) (selectionRect s)
    (dragStartRef s) (panStartRef s) (didDragRef s) (dragModeRef s)
    (currentSpread s) (dragEndTimers s) (loading s) (wheelListener s).

Definition setPageCache (v : gmap Z string) (s : State) : State :=
  mkState (currentPage s) (totalPages s) v (viewMode s) (flipping s)
    (flipTimeoutRef s) (zoom s) (pan s) (isDragging s) (selectionRect s)
    (dragStartRef s) (panStartRef s) (didDragRef s) (dragModeRef s)
    (currentSpread s) (dragEndTimers s) (loading s) (wheelListener s).

Definition setViewMode (v : ViewMode) (s : State) : State :=
  mkState (currentPage s) (totalPages s) (pageCache s) v (flipping s)
    (flipTimeoutRef s) (zoom s) (pan s) (isDragging s) (selectionRect s)
    (dragStartRef s) (panStartRef s) (didDragRef s) (dragModeRef s)
    (currentSpread s) (dragEndTimers s) (loading s) (wheelListener s).

Definition setFlipping (v : option Flip) (s : State) : State :=
  mkState (currentPage s) (totalPages s) (pageCache s) (viewMode s) v
    (flipTimeoutRef s) (zoom s) (pan s) (isDragging s) (selectionRect s)
    (dragStartRef s) (panStartRef s) (didDragRef s) (dragModeRef s)
    (currentSpread s) (dragEndTimers s) (loading s) (wheelListener s).

Definition setFlipTimeout (v : option FlipTimer) (s : State) : State :=
  mkState (currentPage s) (totalPages s) (pageCache s) (viewMode s)
    (flipping s) v (zoom s) (pan s) (isDragging s) (selectionRect s)
    (dragStartRef s) (panStartRef s) (didDragRef s) (dragModeRef s)
    (currentSpread s) (dragEndTimers s) (loading s) (wheelListener s).

Definition setZoom (v : Q) (s : State) : State :=
  mkState (currentPage s) (totalPages s) (pageCache s) (viewMode s)
    (flipping s) (flipTimeoutRef s) v (pan s) (isDragging s)
    (selectionRect s) (dragStartRef s) (panStartRef s) (didDragRef s)
    (dragModeRef s) (currentSpread s) (dragEndTimers s) (loading s) (wheelListener s).

Definition setPan (v : Point) (s : State) : State :=
  mkState (currentPage s) (totalPages s) (pageCache s) (viewMode s)
    (flipping s) (flipTimeoutRef s) (zoom s) v (isDragging s)
    (selectionRect s) (dragStartRef s) (panStartRef s) (didDragRef s)
    (dragModeRef s) (currentSpread s) (dragEndTimers s) (loading s) (wheelListener s).

Definition setIsDragging (v : bool) (s : State) : State :=
  mkState (currentPage s) (totalPages s) (pageCache s) (viewMode s)
    (flipping s) (flipTimeoutRef s) (zoom s) (pan s) v (selectionRect s)
    (dragStartRef s) (panStartRef s) (didDragRef s) (dragModeRef s)
    (currentSpread s) (dragEndTimers s) (loading s) (wheelListener s).

Definition setSelectionRect (v : option SelectionRect) (s : State) : State :=
  mkState (currentPage s) (totalPages s) (pageCache s) (viewMode s)
    (flipping s) (flipTimeoutRef s) (zoom s) (pan s) (isDragging s) v
    (dragStartRef s) (panStartRef s) (didDragRef s) (dragModeRef s)
    (currentSpread s) (dragEndTimers s) (loading s) (wheelListener s).

Definition setDragStart (v : Point) (s : State) : State :=
  mkState (currentPage s) (totalPages s) (pageCache s) (viewMode s)
    (flipping s) (flipTimeoutRef s) (zoom s) (pan s) (isDragging s)
    (selectionRect s) v (panStartRef s) (didDragRef s) (dragModeRef s)
    (currentSpread s) (dragEndTimers s) (loading s) (wheelListener s).

Definition setPanStart (v : Point) (s : State) : State :=
  mkState (currentPage s) (totalPages s) (pageCache s) (viewMode s)
    (flipping s) (flipTimeoutRef s) (zoom s) (pan s) (isDragging s)
    (selectionRect s) (dragStartRef s) v (didDragRef s) (dragModeRef s)
    (currentSpread s) (dragEndTimers s) (loading s) (wheelListener s).

Definition setDidDrag (v : bool) (s : State) : State :=
  mkState (currentPage s) (totalPages s) (pageCache s) (viewMode s)
    (flipping s) (flipTimeoutRef s) (zoom s) (pan s) (isDragging s)
    (selectionRect s) (dragStartRef s) (panStartRef s) v (dragModeRef s)
    (currentSpread s) (dragEndTimers s) (loading s) (wheelListener s).

Definition setDragMode (v : option DragMode) (s : State) : State :=
  mkState (currentPage s) (totalPages s) (pageCache s) (viewMode s)
    (flipping s) (flipTimeoutRef s) (zoom s) (pan s) (isDragging s)
    (selectionRect s) (dragStartRef s) (panStartRef s) (didDragRef s) v
    (currentSpread s) (dragEndTimers s) (loading s) (wheelListener s).

Definition setCurrentSpread (v : Z) (s : State) : State :=
  mkState (currentPage s) (totalPages s) (pageCache s) (viewMode s)
    (flipping s) (flipTimeoutRef s) (zoom s) (pan s) (isDragging s)
    (selectionRect s) (dragStartRef s) (panStartRef s) (didDragRef s)
    (dragModeRef s) v (dragEndTimers s) (loading s) (wheelListener s).

Definition setDragEndTimers (v : nat) (s : State) : State :=
  mkState (currentPage s) (totalPages s) (pageCache s) (viewMode s)
    (flipping s) (flipTimeoutRef s) (zoom s) (pan s) (isDragging s)
    (selectionRect s) (dragStartRef s) (panStartRef s) (didDragRef s)
    (dragModeRef s) (currentSpread s) v (loading s) (wheelListener s).

Definition setLoading (v : bool) (s : State) : State :=
  mkState (currentPage s) (totalPages s) (pageCache s) (viewMode s)
    (flipping s) (flipTimeoutRef s) (zoom s) (pan s) (isDragging s)
    (selectionRect s) (dragStartRef s) (panStartRef s) (didDragRef s)
    (dragModeRef s) (currentSpread s) (dragEndTimers s) v (wheelListener s).

(** ** Zoom *)

Definition resetZoom (s : State) : State :=
  setSelectionRect None (setPan origin (setZoom 1 s)).

(** [useEffect(() => { resetZoom(); }, [currentPage, viewMode])]: run after
    an update that changed one of the two dependencies. *)
Definition resetEffect (before after : State) : State :=
  if decide (currentPage before = currentPage after
             /\ viewMode before = viewMode after)
  then after else resetZoom after.

Definition handleWheel (container : option DOMRect) (e : WheelEvent)
    (s : State) : State :=
  match container with
  | None => s
  | Some rect =>
    let cursorX := ((wheelX e - rect_left rect) / rect_width rect)%Q in
    let cursorY := ((wheelY e - rect_top rect) / rect_height rect)%Q in
    let prevZoom := zoom s in
    let delta := if Qltb 0 (deltaY e) then (- ZOOM_STEP)%Q else ZOOM_STEP in
    let newZoom := Qmin MAX_ZOOM (Qmax MIN_ZOOM (prevZoom + delta)) in
    let s' :=
      if Qeq_bool newZoom MIN_ZOOM then setPan origin s
      else if negb (Qeq_bool newZoom prevZoom) then
        let zoomRatio := (newZoom / prevZoom)%Q in
        let prevPan := pan s in
        setPan
          (mkPoint
             (cursorX * rect_width rect * (1 - zoomRatio)
              + pt_x prevPan * zoomRatio)
             (cursorY * rect_height rect * (1 - zoomRatio)
              + pt_y prevPan * zoomRatio)) s
      else s in
    setZoom newZoom s'
  end.

Definition handleDoubleClick (s : State) : State := resetZoom s.

(** The zoom-out and zoom-in buttons of the header. *)
Definition zoomOutClick (s : State) : State :=
  let nz := Qmax MIN_ZOOM (zoom s - ZOOM_STEP * 2) in
  let s' := if Qeq_bool nz MIN_ZOOM then setPan origin s else s in
  setZoom nz s'.

Definition zoomInClick (s : State) : State :=
  setZoom (Qmin MAX_ZOOM (zoom s + ZOOM_STEP * 2)) s.

(** ** Mouse handlers: Ctrl+drag pans, a plain drag selects an area *)

Definition handleMouseDown (container : option DOMRect) (e : MouseEvent)
    (s : State) : State :=
  match container with
  | None => s
  | Some rect =>
    let s1 := setDragStart (mkPoint (clientX e) (clientY e))
                (setDidDrag false s) in
    if ctrlKey e || metaKey e then
      setPanStart (pan s) (setIsDragging true (setDragMode (Some drag_pan) s1))
    else
      setSelectionRect
        (Some (mkSel (clientX e - rect_left rect) (clientY e - rect_top rect)
                     (clientX e - rect_left rect) (clientY e - rect_top rect)
                     0 0))
        (setIsDragging true (setDragMode (Some drag_select) s1))
  end.

Definition handleMouseMove (container : option DOMRect) (e : MouseEvent)
    (s : State) : State :=
  if negb (isDragging s) then s else
  let dx := (clientX e - pt_x (dragStartRef s))%Q in
  let dy := (clientY e - pt_y (dragStartRef s))%Q in
  let s1 := if Qltb 5 (Qabs dx) || Qltb 5 (Qabs dy)
            then setDidDrag true s else s in
  if decide (dragModeRef s1 = Some drag_pan) then
    setPan (mkPoint (pt_x (panStartRef s1) + dx) (pt_y (panStartRef s1) + dy))
      s1
  else
    match container with
    | None => s1
    | Some rect =>
      let curX := (clientX e - rect_left rect)%Q in
      let curY := (clientY e - rect_top rect)%Q in
      setSelectionRect
        (match selectionRect s1 with
         | None => None
         | Some p =>
           Some (mkSel (startX p) (startY p)
                       (Qmin (startX p) curX) (Qmin (startY p) curY)
                       (Qabs (curX - startX p)) (Qabs (curY - startY p)))
         end) s1
    end.

(** The test that guards the zoom to the selected area. *)
Definition selectionAccepted (s : State) : option SelectionRect :=
  match selectionRect s with
  | Some sel =>
    if bool_decide (dragModeRef s = Some drag_select) && didDragRef s
       && Qltb 20 (sel_w sel) && Qltb 20 (sel_h sel)
    then Some sel else None
  | None => None
  end.

Definition zoomToSelection (rect : DOMRect) (sel : SelectionRect)
    (s : State) : State :=
  let scaleX := (rect_width rect / sel_w sel)%Q in
  let scaleY := (rect_height rect / sel_h sel)%Q in
  let zoomRatio := Qmin scaleX scaleY in
  let newZoom := Qmin MAX_ZOOM (zoom s * zoomRatio) in
  let actualRatio := (newZoom / zoom s)%Q in
  let selCenterX := (sel_x sel + sel_w sel / 2)%Q in
  let selCenterY := (sel_y sel + sel_h sel / 2)%Q in
  setZoom newZoom
    (setPan
       (mkPoint
          (rect_width rect / 2 - actualRatio * (selCenterX - pt_x (pan s)))
          (rect_height rect / 2 - actualRatio * (selCenterY - pt_y (pan s))))
       s).

Definition handleMouseUp (container : option DOMRect) (s : State) : State :=
  let s1 :=
    match selectionAccepted s, container with
    | Some sel, Some rect => zoomToSelection rect sel s
    | _, _ => s
    end in
  setDragEndTimers (S (dragEndTimers s1))
    (setDragMode None (setSelectionRect None s1)).

(** The callback of [setTimeout(() => setIsDragging(false), 50)]. *)
Definition dragEndTimeout (s : State) : State :=
  match dragEndTimers s with
  | O => s
  | S n => setDragEndTimers n (setIsDragging false s)
  end.

(** ** Book mode: spreads *)

Definition totalSpreadsOf (totalPages : Z) : Z := ceil_half (totalPages + 1).

Definition totalSpreads (s : State) : Z := totalSpreadsOf (totalPages s).

Definition getSpreadPagesOf (totalPages spread : Z) : Spread :=
  if spread =? 0 then mkSpread None (Some 1)
  else
    let leftPage := spread * 2 in
    let rightPage := spread * 2 + 1 in
    mkSpread (if leftPage <=? totalPages then Some leftPage else None)
             (if rightPage <=? totalPages then Some rightPage else None).

Definition getSpreadPages (s : State) (spread : Z) : Spread :=
  getSpreadPagesOf (totalPages s) spread.

(** ** Navigation *)

Definition goNextSingle (s : State) : State :=
  setCurrentPage (Z.min (totalPages s) (currentPage s + 1)) s.

Definition goPrevSingle (s : State) : State :=
  setCurrentPage (Z.max 1 (currentPage s - 1)) s.

Definition goNextSpread (s : State) : State :=
  if (currentSpread s >=? totalSpreads s - 1) || bool_decide (flipping s <> None)
  then s
  else setFlipTimeout (Some (mkTimer next (totalSpreads s)))
         (setFlipping (Some next) s).

Definition goPrevSpread (s : State) : State :=
  if (currentSpread s <=? 0) || bool_decide (flipping s <> None)
  then s
  else setFlipTimeout (Some (mkTimer prev (totalSpreads s)))
         (setFlipping (Some prev) s).

(** The callback of the 500 ms flip timer. *)
Definition flipTimeout (s : State) : State :=
  match flipTimeoutRef s with
  | None => s
  | Some t =>
    let target :=
      match tm_dir t with
      | next => Z.min (tm_totalSpreads t - 1) (currentSpread s + 1)
      | prev => Z.max 0 (currentSpread s - 1)
      end in
    setFlipTimeout None (setFlipping None (setCurrentSpread target s))
  end.

(** Single to book: the spread of a page. *)
Definition spreadOfPage (p : Z) : Z :=
  if p =? 1 then 0 else floor_half p.

(** Book to single: [left || right || 1]. *)
Definition pageOfSpread (sp : Spread) : Z :=
  match js_or (js_or (sp_left sp) (sp_right sp)) (Some 1) with
  | Some p => p
  | None => 1
  end.

Definition handleModeChange (newMode : option ViewMode) (s : State) : State :=
  match newMode with
  | None => s
  | Some book =>
    setViewMode book (setCurrentSpread (spreadOfPage (currentPage s)) s)
  | Some single =>
    setViewMode single
      (setCurrentPage (pageOfSpread (getSpreadPages s (currentSpread s))) s)
  end.

(** The first-spread and last-spread buttons. *)
Definition firstSpreadClick (s : State) : State :=
  setFlipping None (setCurrentSpread 0 s).

Definition lastSpreadClick (s : State) : State :=
  setFlipping None (setCurrentSpread (totalSpreads s - 1) s).

(** The reset that runs when the project or the file name changes, and the
    arrival of the page count. *)
Definition documentChange (s : State) : State :=
  resetZoom
    (setFlipping None
       (setPageCache ∅
          (setTotalPages 0 (setCurrentSpread 0 (setCurrentPage 1 s))))).

Definition infoLoaded (page_count : Z) (s : State) : State :=
  setTotalPages page_count s.

(** ** Thumbnails *)

(** The rendering service as the component sees it: [api.get] on the
    thumbnail URL of a page either resolves with a payload or rejects. *)
Definition Api := Z -> option string.

(** A run of asynchronous code: the pages for which a request was sent, in
    order, and the component state with the responses applied. *)
Definition Run : Type := list Z * State.

(** [fetchThumb page].  [docSelected] is [projectId && filename];
    [closedPages] and [closedCache] are the values of [totalPages] and
    [pageCache] the memoised callback closed over. *)
Definition fetchThumb (docSelected : bool) (api : Api) (closedPages : Z)
    (closedCache : gmap Z string) (page : Z) (r : Run) : option string * Run :=
  if negb docSelected || (page <? 1) || (page >? closedPages) then (None, r)
  else if truthy_str (closedCache !! page) then (closedCache !! page, r)
  else
    match api page with
    | Some data =>
      (Some data,
       (r.1 ++ [page], setPageCache (<[page := data]> (pageCache r.2)) r.2))
    | None => (None, (r.1 ++ [page], r.2))
    end.

(** [if (p) fetchThumb(p)] for each page of a list. *)
Definition fetchEach (docSelected : bool) (api : Api) (closedPages : Z)
    (closedCache : gmap Z string) (pages : list (option Z)) (r : Run) : Run :=
  foldl (fun acc p =>
           match p with
           | Some page =>
             if truthy p
             then (fetchThumb docSelected api closedPages closedCache page acc).2
             else acc
           | None => acc
           end) r pages.

(** The calls of [fetchThumb] that [loadPages] makes, run from the render
    [view]. *)
Definition loadThumbs (docSelected : bool) (api : Api)
    (closedCache : gmap Z string) (view : State) (r : Run) : Run :=
  let fetch := fetchThumb docSelected api (totalPages view) closedCache in
  match viewMode view with
  | single =>
    let r1 := (fetch (currentPage view) r).2 in
    let r2 := (fetch (currentPage view + 1) r1).2 in
    (fetch (currentPage view - 1) r2).2
  | book =>
    let cur := getSpreadPages view (currentSpread view) in
    let nxt := getSpreadPages view (currentSpread view + 1) in
    let prv := getSpreadPages view (currentSpread view - 1) in
    fetchEach docSelected api (totalPages view) closedCache
      [sp_left cur; sp_right cur;
       sp_left nxt; sp_right nxt; sp_left prv; sp_right prv] r
  end.

(** [loadPages]: the calls, then [setLoading(false)]. *)
Definition loadPages (docSelected : bool) (api : Api)
    (closedCache : gmap Z string) (view : State) (r : Run) : Run :=
  let r' := loadThumbs docSelected api closedCache view r in
  (r'.1, setLoading false r'.2).

(** The props of the component; [undefined] is [None]. *)
Record Props := mkProps {
  projectId : option string;
  filename : option string
}.

(** [projectId && filename]. *)
Definition hasDocument (props : Props) : bool :=
  truthy_str (projectId props) && truthy_str (filename props).

(** The dependency list of the effect that loads thumbnails:
    [[projectId, filename, totalPages, currentPage, currentSpread,
    viewMode]]. *)
Definition loadDeps (props : Props) (s : State)
    : option string * option string * Z * Z * Z * ViewMode :=
  (projectId props, filename props,
   totalPages s, currentPage s, currentSpread s, viewMode s).

(** The effect after the render of [view] with [props]; [previous] is
    the render before it, with its props, and [None] on mount.  The
    effect runs when a dependency has changed; it returns at once
    without a document or without pages, and otherwise sets [loading]
    and calls [loadPages]. *)
Definition loadEffect (api : Api) (closedCache : gmap Z string)
    (previous : option (Props * State)) (props : Props) (view : State)
    (r : Run) : Run :=
  if bool_decide ((fun pv : Props * State => loadDeps pv.1 pv.2) <$> previous
                  = Some (loadDeps props view)) then r
  else if negb (hasDocument props) || (totalPages view =? 0) then r
  else loadPages (hasDocument props) api closedCache view
         (r.1, setLoading true r.2).

(** ** The component as a transition system *)

Inductive Event :=
| EvWheel (container : option DOMRect) (e : WheelEvent)
| EvDoubleClick
| EvMouseDown (container : option DOMRect) (e : MouseEvent)
| EvMouseMove (container : option DOMRect) (e : MouseEvent)
| EvMouseUp (container : option DOMRect)
| EvDragEndTimeout
| EvZoomOut
| EvZoomIn
| EvResetZoom
| EvFirstPage
| EvPrevPage
| EvNextPage
| EvLastPage
| EvFirstSpread
| EvPrevSpread
| EvNextSpread
| EvLastSpread
| EvFlipTimeout
| EvModeChange (newMode : option ViewMode)
| EvThumbLoaded (page : Z) (data : string)
| EvDocumentChange
| EvInfoLoaded (page_count : Z).

(** The navigation bar is rendered when [totalPages > 1]. *)
Definition navShown (m : ViewMode) (s : State) : bool :=
  (1 <? totalPages s) && bool_decide (viewMode s = m).

(** What a handler does, behind the guards the markup puts in front of it
    ([disabled] buttons, conditionally rendered controls, listeners that
    are registered only while dragging, the wheel listener that is
    registered at mount or never). *)
Definition handle (ev : Event) (s : State) : State :=
  match ev with
  | EvWheel c e => if wheelListener s then handleWheel c e s else s
  | EvDoubleClick => handleDoubleClick s
  | EvMouseDown c e => handleMouseDown c e s
  | EvMouseMove c e => handleMouseMove c e s
  | EvMouseUp c => if isDragging s then handleMouseUp c s else s
  | EvDragEndTimeout => dragEndTimeout s
  | EvZoomOut => if Qle_bool (zoom s) MIN_ZOOM then s else zoomOutClick s
  | EvZoomIn => if Qle_bool MAX_ZOOM (zoom s) then s else zoomInClick s
  | EvResetZoom => if Qltb 1 (zoom s) then resetZoom s else s
  | EvFirstPage =>
    if navShown single s && negb (currentPage s =? 1)
    then setCurrentPage 1 s else s
  | EvPrevPage =>
    if navShown single s && negb (currentPage s =? 1)
    then goPrevSingle s else s
  | EvNextPage =>
    if navShown single s && negb (currentPage s =? totalPages s)
    then goNextSingle s else s
  | EvLastPage =>
    if navShown single s && negb (currentPage s =? totalPages s)
    then setCurrentPage (totalPages s) s else s
  | EvFirstSpread =>
    if navShown book s && negb (currentSpread s =? 0)
    then firstSpreadClick s else s
  | EvPrevSpread =>
    if navShown book s
       && negb ((currentSpread s =? 0) || bool_decide (flipping s <> None))
    then goPrevSpread s else s
  | EvNextSpread =>
    if navShown book s
       && negb ((currentSpread s >=? totalSpreads s - 1)
                || bool_decide (flipping s <> None))
    then goNextSpread s else s
  | EvLastSpread =>
    if navShown book s && negb (currentSpread s >=? totalSpreads s - 1)
    then lastSpreadClick s else s
  | EvFlipTimeout => flipTimeout s
  | EvModeChange m => handleModeChange m s
  | EvThumbLoaded page data =>
    setPageCache (<[page := data]> (pageCache s)) s
  | EvDocumentChange => documentChange s
  | EvInfoLoaded n => infoLoaded n s
  end.

(** One turn of the event loop: the handler, then the zoom-reset effect. *)
Definition dispatch (ev : Event) (s : State) : State :=
  resetEffect s (handle ev s).

Definition run (evs : list Event) (s : State) : State :=
  foldl (fun acc ev => dispatch ev acc) s evs.

(** Events the browser can deliver: a mounted container has a positive
    size, a page count is not negative. *)
Definition container_ok (c : option DOMRect) : bool :=
  match c with
  | Some r => rect_positive r
  | None => true
  end.

Definition event_ok (ev : Event) : bool :=
  match ev with
  | EvWheel c _ | EvMouseDown c _ | EvMouseMove c _ | EvMouseUp c =>
    container_ok c
  | EvInfoLoaded n => 0 <=? n
  | _ => true
  end.

Inductive reachable : State -> Prop :=
| reachable_initial : reachable initial
| reachable_initialEmpty : reachable initialEmpty
| reachable_step ev s :
    reachable s -> event_ok ev = true -> reachable (dispatch ev s).

(** The invariant of the viewport transform. *)
Definition zoom_in_range (s : State) : Prop :=
  (MIN_ZOOM <= zoom s)%Q /\ (zoom s <= MAX_ZOOM)%Q.

Definition transform_inv (s : State) : Prop :=
  zoom_in_range s /\ ((zoom s == 1)%Q -> pan s = origin).

(** The transform as a pair, up to equality of numbers. *)
Definition same_transform (s t : State) : Prop :=
  (zoom s == zoom t)%Q /\ Point_eq (pan s) (pan t).

(** A pointer gesture over the mounted container: pointer-down, the
    pointer-moves with the container as each of them finds it, pointer-up. *)
Definition Move : Type := option DOMRect * MouseEvent.

Definition gesture (rect0 : DOMRect) (down : MouseEvent) (moves : list Move)
    (c_up : option DOMRect) : list Event :=
  EvMouseDown (Some rect0) down
  :: map (fun m : Move => EvMouseMove m.1 m.2) moves ++ [EvMouseUp c_up].

(** A pointer-move that stays within the 5 px of a click. *)
Definition click_move (down m : MouseEvent) : Prop :=
  (Qabs (clientX m - clientX down) <= 5)%Q
  /\ (Qabs (clientY m - clientY down) <= 5)%Q.

(** A select gesture started at [down], with zoom [z] and pan [p], that
    has not left the click radius. *)
Definition selecting (down : MouseEvent) (z : Q) (p : Point) (st : State)
    : Prop :=
  isDragging st = true /\ dragModeRef st = Some drag_select
  /\ didDragRef st = false
  /\ dragStartRef st = mkPoint (clientX down) (clientY down)
  /\ zoom st = z /\ pan st = p.

(** A pan gesture started at [down], with zoom [z] and pan [p]. *)
Definition panning (down : MouseEvent) (z : Q) (p : Point) (st : State)
    : Prop :=
  isDragging st = true /\ dragModeRef st = Some drag_pan
  /\ dragStartRef st = mkPoint (clientX down) (clientY down)
  /\ panStartRef st = p /\ zoom st = z.

(** Where a Ctrl-drag that started with pan [p] leaves the pan. *)
Definition panAfter (down : MouseEvent) (p : Point) (moves : list Move) : Point :=
  match last moves with
  | None => p
  | Some m =>
    mkPoint (pt_x p + (clientX m.2 - clientX down))
            (pt_y p + (clientY m.2 - clientY down))
  end.

(** The two operations that write the pan or the zoom without looking at
    the bounds: a pointer-move of a pan gesture, and a pointer-up that
    zooms to the selected area. *)
Definition pans (ev : Event) (s : State) : bool :=
  match ev with
  | EvMouseMove _ _ =>
    isDragging s && bool_decide (dragModeRef s = Some drag_pan)
  | _ => false
  end.

Definition zoomsToSelection (ev : Event) (s : State) : bool :=
  match ev with
  | EvMouseUp (Some _) =>
    isDragging s && bool_decide (selectionAccepted s <> None)
  | _ => false
  end.

(** The zoom is positive and at most [MAX_ZOOM]. *)
Definition zoom_bounded (s : State) : Prop :=
  (0 < zoom s)%Q /\ (zoom s <= MAX_ZOOM)%Q.

(** The pages of the view unit on screen and of the units next to it:
    the pages [loadPages] calls [fetchThumb] for. *)
Definition wanted (view : State) (p : Z) : Prop :=
  match viewMode view with
  | single =>
    p = currentPage view \/ p = currentPage view + 1
    \/ p = currentPage view - 1
  | book =>
    let cur := getSpreadPages view (currentSpread view) in
    let nxt := getSpreadPages view (currentSpread view + 1) in
    let prv := getSpreadPages view (currentSpread view - 1) in
    Some p ∈ [sp_left cur; sp_right cur;
              sp_left nxt; sp_right nxt; sp_left prv; sp_right prv]
  end.

(** [r'] continues the run [r] with the requests [new], and has recorded
    nothing for the pages whose request the service rejects. *)
Definition continues (api : Api) (r r' : Run) (new : list Z) : Prop :=
  r'.1 = r.1 ++ new
  /\ (forall q, api q = None -> pageCache r'.2 !! q = pageCache r.2 !! q).

(** The navigation state is consistent: the document has pages, the page
    and the spread are in range, and a live flip timer closed over the
    present number of spreads. *)
Definition nav_inv (s : State) : Prop :=
  1 <= totalPages s
  /\ 1 <= currentPage s <= totalPages s
  /\ 0 <= currentSpread s <= totalSpreads s - 1
  /\ (forall t, flipTimeoutRef s = Some t -> tm_totalSpreads t = totalSpreads s).

(** The buttons of the navigation bar. *)
Definition navButtons : list Event :=
  [EvFirstPage; EvPrevPage; EvNextPage; EvLastPage;
   EvFirstSpread; EvPrevSpread; EvNextSpread; EvLastSpread].

(** The events that turn the pages of the book. *)
Definition spreadEvents : list Event :=
  [EvFirstSpread; EvPrevSpread; EvNextSpread; EvLastSpread; EvFlipTimeout].

(** [k] flips in one direction, each one waited for. *)
Definition flips (request : Event) (k : nat) : list Event :=
  concat (replicate k [request; EvFlipTimeout]).

(** The pointer-moves of a gesture, as events. *)
Definition moveEvents (moves : list Move) : list Event :=
  map (fun m : Move => EvMouseMove m.1 m.2) moves.

(** A select gesture whose rectangle started at [(sx, sy)]. *)
Definition selectingFrom (sx sy : Q) (st : State) : Prop :=
  isDragging st = true /\ dragModeRef st = Some drag_select
  /\ exists sel, selectionRect st = Some sel
                 /\ startX sel = sx /\ startY sel = sy.

(** [r'] continues the run [r] with the requests [new]: the responses the
    service gave are in the cache, under their pages, and nothing else of
    the component state differs. *)
Definition records (api : Api) (r r' : Run) (new : list Z) : Prop :=
  r'.1 = r.1 ++ new
  /\ (forall q,
        pageCache r'.2 !! q
        = match (if bool_decide (q ∈ new) then api q else None) with
          | Some data => Some data
          | None => pageCache r.2 !! q
          end)
  /\ setPageCache (pageCache r.2) r'.2 = r.2.

(** A call of [fetchThumb] for [page] gets as far as the request. *)
Definition asks (docSelected : bool) (closedPages : Z)
    (closedCache : gmap Z string) (page : Z) : Prop :=
  docSelected = true /\ 1 <= page <= closedPages
  /\ truthy_str (closedCache !! page) = false.

(** [spreadPageLabel]: the label of the spread on screen.  A template
    literal prints a page number in decimal, as [pretty] does. *)
Definition spreadPageLabelOf (sp : Spread) : string :=
  match sp_left sp, sp_right sp with
  | Some l, Some r =>
    if truthy (Some l) && truthy (Some r)
    then "Págs. " +:+ pretty l +:+ "-" +:+ pretty r
    else if truthy (Some l) then "Pág. " +:+ pretty l
    else if truthy (Some r) then "Pág. " +:+ pretty r
    else ""
  | Some l, None => if truthy (Some l) then "Pág. " +:+ pretty l else ""
  | None, Some r => if truthy (Some r) then "Pág. " +:+ pretty r else ""
  | None, None => ""
  end.

Definition spreadPageLabel (s : State) : string :=
  spreadPageLabelOf (getSpreadPages s (currentSpread s)).

(** What [renderPageImage] puts in the slot of a page: the blank slot for
    no page, the progress spinner for a page without a payload in the
    cache, the image otherwise. *)
Inductive Slot :=
| SlotBlank
| SlotSpinner
| SlotImage (src : string) (page : Z).

Definition renderPageImage (s : State) (pageNum : option Z) : Slot :=
  match pageNum with
  | Some page =>
    if truthy pageNum then
      match pageCache s !! page with
      | Some thumb =>
        if truthy_str (Some thumb) then SlotImage thumb page else SlotSpinner
      | None => SlotSpinner
      end
    else SlotBlank
  | None => SlotBlank
  end.

(** The events that re-render the component without turning a page:
    zooming, panning, selecting, and the arrival of a thumbnail. *)
Definition keepsView (ev : Event) : bool :=
  match ev with
  | EvWheel _ _ | EvDoubleClick | EvMouseDown _ _ | EvMouseMove _ _
  | EvMouseUp _ | EvDragEndTimeout | EvZoomOut | EvZoomIn | EvResetZoom
  | EvThumbLoaded _ _ => true
  | _ => false
  end.

(** The clamped zoom a wheel event asks for: the [newZoom] of
    [handleWheel]. *)
Definition wheelZoom (e : WheelEvent) (z0 : Q) : Q :=
  Qmin MAX_ZOOM
    (Qmax MIN_ZOOM (z0 + (if Qltb 0 (deltaY e) then - ZOOM_STEP else ZOOM_STEP))).

(** * Pagination *)

Lemma floor_half_div (n : Z) : floor_half n = n / 2.
Proof.
  unfold floor_half. change 2%Q with (inject_Z 2).
  symmetry. apply Zdiv_Qdiv.
Qed.

Lemma ceil_half_div (n : Z) : ceil_half n = (n + 1) / 2.
Proof.
  unfold ceil_half, Qceiling. change 2%Q with (inject_Z 2).
  assert (E : (- (inject_Z n / inject_Z 2) == inject_Z (- n) / inject_Z 2)%Q).
  { rewrite inject_Z_opp. field. }
  rewrite (Qfloor_comp _ _ E), <- Zdiv_Qdiv.
  pose proof (Z.div_mod (- n) 2 ltac:(lia)).
  pose proof (Z.mod_pos_bound (- n) 2 ltac:(lia)).
  pose proof (Z.div_mod (n + 1) 2 ltac:(lia)).
  pose proof (Z.mod_pos_bound (n + 1) 2 ltac:(lia)).
  lia.
Qed.

Lemma spreadOfPage_spec (p : Z) :
  1 <= p -> (p = 1 /\ spreadOfPage p = 0) \/ (2 <= p /\ spreadOfPage p = p / 2).
Proof.
  intros Hp. unfold spreadOfPage.
  destruct (Z.eqb_spec p 1) as [->|Hne]; [left; done|].
  right. rewrite floor_half_div. lia.
Qed.

Lemma totalSpreadsOf_bounds (pageCount : Z) :
  2 * totalSpreadsOf pageCount - 2 < pageCount + 1 <= 2 * totalSpreadsOf pageCount.
Proof.
  unfold totalSpreadsOf. rewrite ceil_half_div.
  pose proof (Z.div_mod (pageCount + 1 + 1) 2 ltac:(lia)).
  pose proof (Z.mod_pos_bound (pageCount + 1 + 1) 2 ltac:(lia)).
  lia.
Qed.

(** C2 (counterexample).  For a document without pages the cover spread
    still names page 1 on its right: [getSpreadPages 0] returns
    [{left: null, right: 1}] whatever [totalPages] is, so its right page
    is not [null] when the page count is 0. *)
Lemma cover_of_empty_document_has_right_page :
  getSpreadPagesOf 0 0 = mkSpread None (Some 1)
  /\ sp_right (getSpreadPagesOf 0 0) <> None.
Proof. split; [reflexivity | discriminate]. Qed.

(** C2 (amended).  For every page count [pageCount >= 0]: spread 0 is
    [{left: null, right: 1}], also when [pageCount = 0]; for every spread
    [s >= 1] the left page is [2s] and the right page is [2s+1], each
    replaced by [null] when it exceeds [pageCount]; and the number of
    spreads is the ceiling of [(pageCount + 1) / 2], that is the least
    integer [k] with [pageCount + 1 <= 2k]. *)
Theorem spread_addressing (pageCount s : Z) :
  0 <= pageCount -> 1 <= s ->
  getSpreadPagesOf pageCount 0 = mkSpread None (Some 1)
  /\ sp_left (getSpreadPagesOf pageCount s)
     = (if decide (2 * s <= pageCount) then Some (2 * s) else None)
  /\ sp_right (getSpreadPagesOf pageCount s)
     = (if decide (2 * s + 1 <= pageCount) then Some (2 * s + 1) else None)
  /\ pageCount + 1 <= 2 * totalSpreadsOf pageCount
  /\ (forall k, pageCount + 1 <= 2 * k -> totalSpreadsOf pageCount <= k).
Proof.
  intros Hn Hs. split; [reflexivity|].
  unfold getSpreadPagesOf.
  destruct (Z.eqb_spec s 0) as [->|_]; [lia|]. simpl.
  split; [|split].
  - destruct (Z.leb_spec (s * 2) pageCount); case_decide; try lia.
    + f_equal; lia.
    + reflexivity.
  - destruct (Z.leb_spec (s * 2 + 1) pageCount); case_decide; try lia.
    + f_equal; lia.
    + reflexivity.
  - pose proof (totalSpreadsOf_bounds pageCount). split; [lia|].
    intros k Hk. lia.
Qed.

(** An instance: ten pages, the cover and the last spread. *)
Lemma spread_addressing_witness :
  getSpreadPagesOf 10 0 = mkSpread None (Some 1)
  /\ sp_left (getSpreadPagesOf 10 5) = Some 10
  /\ sp_right (getSpreadPagesOf 10 5) = None
  /\ totalSpreadsOf 10 = 6.
Proof.
  destruct (spread_addressing 10 5) as (H0 & Hl & Hr & Hle & Hmin);
    [lia | lia |].
  split; [exact H0|]. split; [exact Hl|]. split; [exact Hr|].
  apply Z.le_antisymm; [apply Hmin; lia | lia].
Defined.

(** C9.  For every page count [pageCount >= 0] and every spread [s >= 1]
    a right page that is not [null] comes with a left page that is not
    [null]; the spread is one of [{2s, 2s+1}], [{2s, null}] and
    [{null, null}]; and among the spreads [s >= 0] a [null] left page
    with a right page that is not [null] occurs only at the cover,
    [s = 0]. *)
Theorem spread_shapes (pageCount s : Z) :
  0 <= pageCount -> 0 <= s ->
  let sp := getSpreadPagesOf pageCount s in
  (1 <= s -> sp_right sp <> None -> sp_left sp <> None)
  /\ (1 <= s ->
      sp = mkSpread (Some (2 * s)) (Some (2 * s + 1))
      \/ sp = mkSpread (Some (2 * s)) None
      \/ sp = mkSpread None None)
  /\ (sp_left sp = None -> sp_right sp <> None -> s = 0).
Proof.
  intros Hn Hs sp. subst sp. unfold getSpreadPagesOf.
  destruct (Z.eqb_spec s 0) as [->|Hne].
  - split; [lia|]. split; [lia|]. reflexivity.
  - replace (s * 2) with (2 * s) by lia.
    destruct (Z.leb_spec (2 * s) pageCount) as [Hl|Hl];
      destruct (Z.leb_spec (2 * s + 1) pageCount) as [Hr|Hr];
      simpl; try lia.
    + split; [discriminate|]. split; [auto|]. discriminate.
    + split; [discriminate|]. split; [auto|]. discriminate.
    + split; [congruence|]. split; [auto|]. congruence.
Qed.

(** An instance: spread 3 of documents with 7, 6 and 5 pages. *)
Lemma spread_shapes_witness :
  sp_left (getSpreadPagesOf 7 3) <> None
  /\ getSpreadPagesOf 7 3 = mkSpread (Some 6) (Some 7)
  /\ getSpreadPagesOf 6 3 = mkSpread (Some 6) None
  /\ getSpreadPagesOf 5 3 = mkSpread None None.
Proof.
  destruct (spread_shapes 7 3) as (Hr & _ & _); [lia | lia |].
  split; [apply Hr; [lia | discriminate]|].
  repeat split.
Defined.

(** The zoom-reset effect touches the transform and the selection only. *)
Lemma resetEffect_pages (a b : State) :
  currentPage (resetEffect a b) = currentPage b
  /\ currentSpread (resetEffect a b) = currentSpread b
  /\ totalPages (resetEffect a b) = totalPages b
  /\ viewMode (resetEffect a b) = viewMode b
  /\ flipping (resetEffect a b) = flipping b
  /\ flipTimeoutRef (resetEffect a b) = flipTimeoutRef b
  /\ pageCache (resetEffect a b) = pageCache b.
Proof. unfold resetEffect. case_decide; repeat split. Qed.

Lemma pageOfSpread_left (sp : Spread) (l : Z) :
  sp_left sp = Some l -> l <> 0 -> pageOfSpread sp = l.
Proof.
  intros Hl Hne.
  assert (Ht : truthy (Some l) = true).
  { simpl. by destruct (Z.eqb_spec l 0). }
  unfold pageOfSpread, js_or. rewrite Hl, Ht, Ht. reflexivity.
Qed.

(** C7.  For every page [p] in [1, pageCount]: switching from single mode
    to book mode shows the spread [0] if [p = 1] and [floor (p / 2)]
    otherwise, and switching back to single mode shows a page [q] of the
    document that is [p] itself or the left-hand partner of [p] in that
    spread; converting [q] to book mode again gives the spread of [p]. *)
Theorem mode_round_trip (s : State) (p : Z) :
  1 <= p <= totalPages s -> currentPage s = p ->
  let s1 := dispatch (EvModeChange (Some book)) s in
  let s2 := dispatch (EvModeChange (Some single)) s1 in
  let q := currentPage s2 in
  let sp := getSpreadPages s (spreadOfPage p) in
  currentSpread s1 = spreadOfPage p
  /\ viewMode s1 = book /\ viewMode s2 = single
  /\ 1 <= q <= totalPages s
  /\ (q = p \/ (sp_left sp = Some q /\ sp_right sp = Some p))
  /\ spreadOfPage q = spreadOfPage p
  /\ currentSpread (dispatch (EvModeChange (Some book)) s2) = spreadOfPage p.
Proof.
  intros Hp Hcur s1 s2 q sp.
  assert (H1 : currentSpread s1 = spreadOfPage p
               /\ totalPages s1 = totalPages s /\ viewMode s1 = book).
  { subst s1. unfold dispatch.
    destruct (resetEffect_pages s (handle (EvModeChange (Some book)) s))
      as (_ & -> & -> & -> & _).
    simpl. rewrite Hcur. done. }
  destruct H1 as (Hsp & Htot & Hm1).
  assert (H2 : q = pageOfSpread sp /\ viewMode s2 = single
               /\ currentPage s2 = q).
  { subst q s2 sp. unfold dispatch.
    destruct (resetEffect_pages s1 (handle (EvModeChange (Some single)) s1))
      as (-> & _ & _ & -> & _).
    simpl. unfold getSpreadPages. rewrite Hsp, Htot. done. }
  destruct H2 as (Hq & Hm2 & Hq2).
  assert (Hmain : 1 <= q <= totalPages s
                  /\ (q = p \/ (sp_left sp = Some q /\ sp_right sp = Some p))
                  /\ spreadOfPage q = spreadOfPage p).
  { rewrite Hq. subst sp. unfold getSpreadPages, getSpreadPagesOf.
    destruct (spreadOfPage_spec p ltac:(lia)) as [[-> E]|[Hp2 E]]; rewrite E.
    - simpl. unfold pageOfSpread; simpl. split; [lia|]. split; [by left|done].
    - pose proof (Z.div_mod p 2 ltac:(lia)) as Hdm.
      pose proof (Z.mod_pos_bound p 2 ltac:(lia)) as Hmb.
      set (k := p / 2) in *. set (r := p mod 2) in *.
      assert (Hk : 1 <= k) by lia.
      assert (Hfl : spreadOfPage (k * 2) = k).
      { unfold spreadOfPage.
        destruct (Z.eqb_spec (k * 2) 1) as [Ho|_]; [lia|].
        rewrite floor_half_div. apply Z.div_mul. lia. }
      destruct (Z.eqb_spec k 0) as [Hz|_]; [lia|].
      destruct (Z.leb_spec (k * 2) (totalPages s)) as [_|Hl]; [|lia].
      rewrite (pageOfSpread_left _ (k * 2)); [| reflexivity | lia].
      cbn [sp_left sp_right].
      split; [lia|]. split; [|exact Hfl].
      destruct (Z.eq_dec r 0) as [Hm|Hm]; [left; lia|].
      right. split; [done|].
      destruct (Z.leb_spec (k * 2 + 1) (totalPages s)); [|lia].
      f_equal; lia. }
  destruct Hmain as (Hr & Hpair & Hsame).
  repeat split; try done; try lia.
  unfold dispatch.
  destruct (resetEffect_pages s2 (handle (EvModeChange (Some book)) s2))
    as (_ & -> & _).
  simpl. rewrite Hq2. exact Hsame.
Qed.

(** An instance: page 7 of 10 comes back as page 6, its partner. *)
Lemma mode_round_trip_witness :
  currentPage
    (run [EvModeChange (Some book); EvModeChange (Some single)]
         (setCurrentPage 7 (setViewMode single (setTotalPages 10 initial))))
  = 6
  /\ spreadOfPage 6 = spreadOfPage 7.
Proof.
  destruct (mode_round_trip
              (setCurrentPage 7 (setViewMode single (setTotalPages 10 initial)))
              7) as (_ & _ & _ & _ & _ & Hs & _);
    [simpl; lia | reflexivity |].
  split; [reflexivity | exact Hs].
Defined.

(** * The viewport transform *)

Lemma Qltb_true (a b : Q) : Qltb a b = true <-> (a < b)%Q.
Proof.
  unfold Qltb. rewrite Qlt_alt. destruct (a ?= b)%Q; split; congruence.
Qed.

Lemma Qltb_false (a b : Q) : Qltb a b = false <-> (b <= a)%Q.
Proof.
  rewrite <- not_true_iff_false, Qltb_true. split.
  - apply Qnot_lt_le.
  - intros H1 H2. exact (Qlt_not_le _ _ H2 H1).
Qed.

Lemma Qeq_bool_true (a b : Q) : Qeq_bool a b = true <-> (a == b)%Q.
Proof. apply Qeq_bool_iff. Qed.

Lemma Qeq_bool_false (a b : Q) : Qeq_bool a b = false <-> ~ (a == b)%Q.
Proof. rewrite <- not_true_iff_false, Qeq_bool_iff. tauto. Qed.

(** [Math.min(MAX_ZOOM, Math.max(MIN_ZOOM, z))] lies between the bounds. *)
Lemma clamp_range (z : Q) :
  (MIN_ZOOM <= Qmin MAX_ZOOM (Qmax MIN_ZOOM z) <= MAX_ZOOM)%Q.
Proof.
  split.
  - apply Q.min_glb; [unfold MIN_ZOOM, MAX_ZOOM; lra | apply Q.le_max_l].
  - apply Q.le_min_l.
Qed.

(** The zoom-reset effect runs only after a change of page or mode. *)
Lemma dispatch_handle (ev : Event) (s : State) :
  currentPage (handle ev s) = currentPage s ->
  viewMode (handle ev s) = viewMode s ->
  dispatch ev s = handle ev s.
Proof.
  intros Hp Hm. unfold dispatch, resetEffect.
  case_decide as H; [reflexivity|]. destruct H; split; congruence.
Qed.

Lemma handleWheel_pages c e s :
  currentPage (handleWheel c e s) = currentPage s
  /\ viewMode (handleWheel c e s) = viewMode s.
Proof.
  unfold handleWheel. destruct c as [rect|]; [|done].
  destruct (Qeq_bool _ MIN_ZOOM); [done|].
  destruct (negb _); done.
Qed.

(** A wheel event reaches [handleWheel] when the listener is registered,
    and nothing otherwise. *)
Lemma dispatch_wheel c e s :
  wheelListener s = true -> dispatch (EvWheel c e) s = handleWheel c e s.
Proof.
  intros Hl. rewrite dispatch_handle; cbn [handle]; rewrite Hl; try done;
    apply handleWheel_pages.
Qed.

Lemma dispatch_wheel_unheard c e s :
  wheelListener s = false -> dispatch (EvWheel c e) s = s.
Proof.
  intros Hl. rewrite dispatch_handle; cbn [handle]; by rewrite Hl.
Qed.

(** C5.  For every wheel event the registered listener receives, over a
    container of positive size, with
    the cursor at [(cx, cy)] relative to the container, prior pan [p],
    prior zoom [z0 > 0], clamped new zoom [z1] and [r = z1 / z0]: the new
    zoom is [z1]; when [z1 > 1] the new pan is [cursor * (1 - r) + p * r]
    componentwise, so that the point under the cursor stays where it is;
    and when [z1 == 1] the new pan is [(0,0)] whatever the formula gives. *)
Theorem wheel_zoom_anchored (rect : DOMRect) (e : WheelEvent) (s : State) :
  wheelListener s = true ->
  rect_positive rect = true -> (0 < zoom s)%Q ->
  let s' := dispatch (EvWheel (Some rect) e) s in
  let z0 := zoom s in
  let z1 := wheelZoom e z0 in
  let r := (z1 / z0)%Q in
  let cx := (wheelX e - rect_left rect)%Q in
  let cy := (wheelY e - rect_top rect)%Q in
  zoom s' = z1
  /\ ((1 < z1)%Q ->
      Point_eq (pan s')
        (mkPoint (cx * (1 - r) + pt_x (pan s) * r)
                 (cy * (1 - r) + pt_y (pan s) * r))
      /\ ((cx - pt_x (pan s')) / z1 == (cx - pt_x (pan s)) / z0)%Q
      /\ ((cy - pt_y (pan s')) / z1 == (cy - pt_y (pan s)) / z0)%Q)
  /\ ((z1 == 1)%Q -> pan s' = origin).
Proof.
  intros Hl Hrect Hz0 s' z0 z1 r cx cy.
  subst s'. rewrite (dispatch_wheel _ _ _ Hl).
  apply andb_true_iff in Hrect as [Hw Hh].
  apply Qltb_true in Hw, Hh.
  unfold handleWheel. fold (wheelZoom e (zoom s)). fold z0 z1.
  destruct (Qeq_bool z1 MIN_ZOOM) eqn:Emin.
  - apply Qeq_bool_true in Emin. unfold MIN_ZOOM in Emin.
    split; [reflexivity|]. split; [|reflexivity].
    intros Hgt. rewrite Emin in Hgt. lra.
  - apply Qeq_bool_false in Emin. unfold MIN_ZOOM in Emin.
    split; [by destruct (negb _)|]. split; [|intros H; by destruct Emin].
    intros Hgt.
    change (0 < z0)%Q in Hz0. clearbody z1. clearbody z0.
    assert (Point_eq
              (pan (setZoom z1
                 (if negb (Qeq_bool z1 z0)
                  then setPan
                         (mkPoint
                            ((wheelX e - rect_left rect) / rect_width rect
                             * rect_width rect * (1 - z1 / z0)
                             + pt_x (pan s) * (z1 / z0))
                            ((wheelY e - rect_top rect) / rect_height rect
                             * rect_height rect * (1 - z1 / z0)
                             + pt_y (pan s) * (z1 / z0))) s
                  else s)))
              (mkPoint (cx * (1 - r) + pt_x (pan s) * r)
                       (cy * (1 - r) + pt_y (pan s) * r))) as Hpan.
    { destruct (Qeq_bool z1 z0) eqn:Esame; simpl.
      - apply Qeq_bool_true in Esame.
        assert (Hr : (r == 1)%Q).
        { subst r. rewrite Esame. field. lra. }
        split; simpl; rewrite Hr; ring.
      - subst cx cy r. split; simpl; field; lra. }
    split; [exact Hpan|].
    destruct Hpan as [Hx Hy]. rewrite Hx, Hy. simpl.
    subst r. split; field; lra.
Qed.

(** An instance: one notch in at the centre of an 800 x 600 container,
    from zoom 2 and pan (10, 20). *)
Lemma wheel_zoom_anchored_witness :
  let s := setPan (mkPoint 10 20) (setZoom 2 initial) in
  let s' := dispatch (EvWheel (Some (mkRect 0 0 800 600)) (mkWheel 400 300 (-100))) s in
  zoom s' = wheelZoom (mkWheel 400 300 (-100)) 2
  /\ (zoom s' == 23 # 10)%Q
  /\ Point_eq (pan s') (mkPoint (-97 # 2) (-22)).
Proof.
  intros s s'.
  destruct (wheel_zoom_anchored (mkRect 0 0 800 600) (mkWheel 400 300 (-100)) s)
    as (Hz & Hp & _); [reflexivity | reflexivity | reflexivity |].
  split; [exact Hz|]. split; [reflexivity|].
  destruct Hp as ([Hx Hy] & _); [reflexivity|].
  split; [eapply Qeq_trans; [exact Hx|] | eapply Qeq_trans; [exact Hy|]];
    vm_compute; reflexivity.
Defined.

(** C10.  A wheel zoom-out event ([deltaY > 0]) received by the
    registered listener while the zoom
    is 1 leaves the zoom at 1 and sets the pan to [(0,0)], whatever the
    pan was; a wheel zoom-in event received while the zoom is 8 leaves
    the zoom and the pan as they were. *)
Theorem wheel_at_the_limits (rect : DOMRect) (e : WheelEvent) (s : State) :
  wheelListener s = true ->
  let s' := dispatch (EvWheel (Some rect) e) s in
  ((zoom s == MIN_ZOOM)%Q -> (0 < deltaY e)%Q ->
   (zoom s' == 1)%Q /\ pan s' = origin)
  /\ ((zoom s == MAX_ZOOM)%Q -> (deltaY e <= 0)%Q ->
      (zoom s' == zoom s)%Q /\ pan s' = pan s).
Proof.
  intros Hl s'. subst s'. rewrite (dispatch_wheel _ _ _ Hl).
  unfold handleWheel. fold (wheelZoom e (zoom s)).
  split.
  - intros Hz Hd. unfold MIN_ZOOM in Hz.
    assert (Hnew : (wheelZoom e (zoom s) == 1)%Q).
    { unfold wheelZoom. rewrite (proj2 (Qltb_true 0 (deltaY e)) Hd).
      unfold MAX_ZOOM, MIN_ZOOM, ZOOM_STEP.
      rewrite Q.max_l by lra. apply Q.min_r. lra. }
    rewrite (proj2 (Qeq_bool_true _ MIN_ZOOM) Hnew). simpl. done.
  - intros Hz Hd. unfold MAX_ZOOM in Hz.
    assert (Hnew : (wheelZoom e (zoom s) == 8)%Q).
    { unfold wheelZoom. rewrite (proj2 (Qltb_false 0 (deltaY e)) Hd).
      unfold MAX_ZOOM, MIN_ZOOM, ZOOM_STEP.
      rewrite Q.max_r by lra. apply Q.min_l. lra. }
    assert (Hne : Qeq_bool (wheelZoom e (zoom s)) MIN_ZOOM = false).
    { apply Qeq_bool_false. unfold MIN_ZOOM. rewrite Hnew. lra. }
    assert (Hsame : Qeq_bool (wheelZoom e (zoom s)) (zoom s) = true).
    { apply Qeq_bool_true. rewrite Hnew, Hz. reflexivity. }
    rewrite Hne, Hsame. simpl. split; [|reflexivity].
    rewrite Hnew, Hz. reflexivity.
Qed.

(** An instance: a notch out at zoom 1 and a notch in at zoom 8, both
    with pan (30, -12). *)
Lemma wheel_at_the_limits_witness :
  let r := mkRect 0 0 800 600 in
  let out := dispatch (EvWheel (Some r) (mkWheel 5 5 120))
               (setPan (mkPoint 30 (-12)) initial) in
  let inn := dispatch (EvWheel (Some r) (mkWheel 5 5 (-120)))
               (setPan (mkPoint 30 (-12)) (setZoom 8 initial)) in
  ((zoom out == 1)%Q /\ pan out = origin)
  /\ ((zoom inn == 8)%Q /\ pan inn = mkPoint 30 (-12)).
Proof.
  intros r out inn. split.
  - apply (wheel_at_the_limits r (mkWheel 5 5 120)
             (setPan (mkPoint 30 (-12)) initial)); reflexivity.
  - apply (wheel_at_the_limits r (mkWheel 5 5 (-120))
             (setPan (mkPoint 30 (-12)) (setZoom 8 initial)));
      [reflexivity | reflexivity | discriminate].
Defined.

Lemma zoomToSelection_pages rect sel s :
  currentPage (zoomToSelection rect sel s) = currentPage s
  /\ viewMode (zoomToSelection rect sel s) = viewMode s.
Proof. done. Qed.

Lemma handleMouseUp_pages c s :
  currentPage (handleMouseUp c s) = currentPage s
  /\ viewMode (handleMouseUp c s) = viewMode s.
Proof.
  unfold handleMouseUp. destruct (selectionAccepted s), c; done.
Qed.

Lemma dispatch_mouseUp c s :
  dispatch (EvMouseUp c) s = if isDragging s then handleMouseUp c s else s.
Proof.
  apply dispatch_handle; simpl; destruct (isDragging s);
    try done; apply handleMouseUp_pages.
Qed.

Lemma selectionAccepted_Some (s : State) (sel : SelectionRect) :
  selectionAccepted s = Some sel <->
  selectionRect s = Some sel /\ dragModeRef s = Some drag_select
  /\ didDragRef s = true /\ (20 < sel_w sel)%Q /\ (20 < sel_h sel)%Q.
Proof.
  unfold selectionAccepted. destruct (selectionRect s) as [r|];
    [| split; [discriminate | intros (E & _); discriminate]].
  rewrite <- !Qltb_true. split.
  - destruct (bool_decide_reflect (dragModeRef s = Some drag_select));
      destruct (didDragRef s), (Qltb 20 (sel_w r)) eqn:Ew,
        (Qltb 20 (sel_h r)) eqn:Eh; simpl; try discriminate.
    intros E. injection E as ->. done.
  - intros (E & Hm & Hd & Hw & Hh). injection E as ->.
    rewrite (bool_decide_eq_true_2 _ Hm), Hd, Hw, Hh. reflexivity.
Qed.

(** C4.  For every pointer-up that ends a select-classified drag whose
    selection rectangle exceeds 20 x 20 px, at a positive zoom: the new
    zoom is
    [min (viewportWidth / selectionWidth, viewportHeight / selectionHeight)
    * currentZoom] clamped to 8, and the new pan is
    [viewportCenter - (newZoom / oldZoom) * (selectionCenter - oldPan)],
    which carries the centre of the selection to the centre of the
    viewport; a 100 x 80 selection on an 800 x 600 viewport at zoom 1
    gives zoom 7.5. *)
Theorem zoom_to_selection (rect : DOMRect) (sel : SelectionRect) (s : State) :
  isDragging s = true ->
  dragModeRef s = Some drag_select -> didDragRef s = true ->
  selectionRect s = Some sel ->
  (20 < sel_w sel)%Q -> (20 < sel_h sel)%Q -> (0 < zoom s)%Q ->
  let s' := dispatch (EvMouseUp (Some rect)) s in
  let ratio := (zoom s' / zoom s)%Q in
  let selCenter :=
    mkPoint (sel_x sel + sel_w sel / 2) (sel_y sel + sel_h sel / 2) in
  let viewportCenter := mkPoint (rect_width rect / 2) (rect_height rect / 2) in
  (zoom s' ==
   Qmin 8 (Qmin (rect_width rect / sel_w sel) (rect_height rect / sel_h sel)
           * zoom s))%Q
  /\ pan s' =
     mkPoint
       (pt_x viewportCenter - ratio * (pt_x selCenter - pt_x (pan s)))
       (pt_y viewportCenter - ratio * (pt_y selCenter - pt_y (pan s)))
  /\ Point_eq
       (mkPoint (ratio * (pt_x selCenter - pt_x (pan s)) + pt_x (pan s'))
                (ratio * (pt_y selCenter - pt_y (pan s)) + pt_y (pan s')))
       viewportCenter
  /\ ((rect_width rect == 800)%Q -> (rect_height rect == 600)%Q ->
      (sel_w sel == 100)%Q -> (sel_h sel == 80)%Q -> (zoom s == 1)%Q ->
      (zoom s' == 15 # 2)%Q).
Proof.
  intros Hdrag Hmode Hdid Hsel Hw Hh Hz0 s' ratio selCenter viewportCenter.
  assert (Hacc : selectionAccepted s = Some sel)
    by (apply selectionAccepted_Some; done).
  assert (Hs' : s' = setDragEndTimers (S (dragEndTimers s))
                       (setDragMode None
                          (setSelectionRect None (zoomToSelection rect sel s)))).
  { subst s'. rewrite dispatch_mouseUp, Hdrag.
    unfold handleMouseUp. rewrite Hacc. reflexivity. }
  assert (Hzoom : zoom s' =
                  Qmin MAX_ZOOM
                    (zoom s * Qmin (rect_width rect / sel_w sel)
                                   (rect_height rect / sel_h sel)))
    by (rewrite Hs'; reflexivity).
  assert (Hpan : pan s' =
     mkPoint
       (pt_x viewportCenter - ratio * (pt_x selCenter - pt_x (pan s)))
       (pt_y viewportCenter - ratio * (pt_y selCenter - pt_y (pan s)))).
  { subst ratio. rewrite Hzoom, Hs'. reflexivity. }
  assert (Hz8 : (zoom s' ==
             Qmin 8 (Qmin (rect_width rect / sel_w sel)
                       (rect_height rect / sel_h sel) * zoom s))%Q).
  { rewrite Hzoom. unfold MAX_ZOOM.
    apply Q.min_compat; [reflexivity | ring]. }
  split; [exact Hz8|]. split; [exact Hpan|]. split.
  - rewrite Hpan. split; simpl; ring.
  - intros Ew Eh Esw Esh Ez. rewrite Hz8, Ew, Eh, Esw, Esh, Ez.
    reflexivity.
Qed.

(** An instance: the 100 x 80 selection on the 800 x 600 container at
    zoom 1. *)
Lemma zoom_to_selection_witness :
  let sel := mkSel 50 60 50 60 100 80 in
  let s := setSelectionRect (Some sel)
             (setDidDrag true (setDragMode (Some drag_select)
                (setIsDragging true initial))) in
  let s' := dispatch (EvMouseUp (Some (mkRect 0 0 800 600))) s in
  (zoom s' == 15 # 2)%Q /\ Point_eq (pan s') (mkPoint (-350) (-450)).
Proof.
  intros sel s s'.
  destruct (zoom_to_selection (mkRect 0 0 800 600) sel s)
    as (_ & Hpan & _ & Hz); try reflexivity.
  split; [apply Hz; reflexivity|].
  unfold s'. rewrite Hpan. split; vm_compute; reflexivity.
Defined.

(** * Gestures *)

Lemma handleMouseMove_pages c e s :
  currentPage (handleMouseMove c e s) = currentPage s
  /\ viewMode (handleMouseMove c e s) = viewMode s.
Proof.
  unfold handleMouseMove. destruct (negb (isDragging s)); [done|].
  destruct (_ || _); case_decide; try done; destruct c; done.
Qed.

Lemma dispatch_mouseMove c e s :
  dispatch (EvMouseMove c e) s = handleMouseMove c e s.
Proof. apply dispatch_handle; apply handleMouseMove_pages. Qed.

Lemma dispatch_mouseDown c e s :
  dispatch (EvMouseDown c e) s = handleMouseDown c e s.
Proof.
  apply dispatch_handle; unfold handle, handleMouseDown;
    destruct c; try done; destruct (ctrlKey e || metaKey e); done.
Qed.

Lemma run_cons ev evs s : run (ev :: evs) s = run evs (dispatch ev s).
Proof. reflexivity. Qed.

Lemma run_app evs1 evs2 s : run (evs1 ++ evs2) s = run evs2 (run evs1 s).
Proof. unfold run. apply foldl_app. Qed.

Section Click.
Variables (down : MouseEvent) (z : Q) (p : Point).

Lemma selecting_move c m st :
  selecting down z p st -> click_move down m ->
  selecting down z p (dispatch (EvMouseMove c m) st).
Proof.
  intros (Hd & Hm & Hdid & Hstart & Hz & Hp) [Hx Hy].
  rewrite dispatch_mouseMove. unfold handleMouseMove.
  rewrite Hd, Hstart. cbn [negb pt_x pt_y].
  rewrite (proj2 (Qltb_false _ _) Hx), (proj2 (Qltb_false _ _) Hy).
  cbn [orb]. rewrite Hm. case_decide; [discriminate|].
  destruct c; repeat split; done.
Qed.

Lemma selecting_moves (moves : list Move) st :
  selecting down z p st -> Forall (fun m : Move => click_move down m.2) moves ->
  selecting down z p (run (map (fun m : Move => EvMouseMove m.1 m.2) moves) st).
Proof.
  intros Hst Hall. revert st Hst.
  induction Hall as [|m ms Hm _ IH]; intros st Hst; [exact Hst|].
  cbn [map]. rewrite run_cons. apply IH. by apply selecting_move.
Qed.

Lemma selecting_up c st :
  selecting down z p st ->
  zoom (dispatch (EvMouseUp c) st) = z /\ pan (dispatch (EvMouseUp c) st) = p.
Proof.
  intros (Hd & Hm & Hdid & Hstart & Hz & Hp).
  rewrite dispatch_mouseUp, Hd. unfold handleMouseUp.
  assert (Hacc : selectionAccepted st = None).
  { unfold selectionAccepted. rewrite Hdid.
    destruct (selectionRect st); [|done].
    by rewrite andb_false_r. }
  rewrite Hacc. done.
Qed.

Lemma panning_move c m st :
  panning down z p st ->
  panning down z p (dispatch (EvMouseMove c m) st)
  /\ pan (dispatch (EvMouseMove c m) st)
     = mkPoint (pt_x p + (clientX m - clientX down))
               (pt_y p + (clientY m - clientY down)).
Proof.
  intros (Hd & Hm & Hstart & Hp & Hz).
  rewrite dispatch_mouseMove. unfold handleMouseMove.
  rewrite Hd, Hstart. cbn [negb pt_x pt_y].
  destruct (_ || _); cbn; rewrite Hm; (case_decide; [|done]);
    cbn; rewrite Hp; done.
Qed.

Lemma panning_moves (moves : list Move) st :
  panning down z p st ->
  let st' := run (map (fun m : Move => EvMouseMove m.1 m.2) moves) st in
  panning down z p st'
  /\ pan st' = match last moves with
               | None => pan st
               | Some _ => panAfter down p moves
               end.
Proof.
  revert st. induction moves as [|m ms IH]; intros st Hst; [done|].
  cbn [map]. cbv zeta. rewrite run_cons.
  destruct (panning_move m.1 m.2 st Hst) as [Hst' Hpan'].
  destruct (IH _ Hst') as [Hinv Hpan]. split; [exact Hinv|].
  rewrite Hpan. unfold panAfter. rewrite last_cons.
  destruct (last ms); [reflexivity | exact Hpan'].
Qed.

Lemma panning_up c st :
  panning down z p st ->
  zoom (dispatch (EvMouseUp c) st) = z
  /\ pan (dispatch (EvMouseUp c) st) = pan st.
Proof.
  intros (Hd & Hm & Hstart & Hp & Hz).
  rewrite dispatch_mouseUp, Hd. unfold handleMouseUp.
  assert (Hacc : selectionAccepted st = None).
  { unfold selectionAccepted. rewrite Hm.
    destruct (selectionRect st); done. }
  rewrite Hacc. done.
Qed.
End Click.

(** C8 (counterexample).  A Ctrl-click whose pointer moves by 3 px between
    pointer-down and pointer-up shifts the pan by 3 px: the pan follows
    every pointer-move of a pan gesture, below the 5 px threshold too. *)
Lemma ctrl_click_shifts_pan :
  let rect := mkRect 0 0 800 600 in
  let s := dispatch (EvWheel (Some rect) (mkWheel 0 0 (-100))) initial in
  let s' := run (gesture rect (mkMouse 100 100 true false)
                   [(Some rect, mkMouse 103 100 true false)] (Some rect)) s in
  click_move (mkMouse 100 100 true false) (mkMouse 103 100 true false)
  /\ Point_eq (pan s) (mkPoint 0 0)
  /\ Point_eq (pan s') (mkPoint 3 0)
  /\ ~ same_transform s' s.
Proof.
  intros rect s s'. split; [split; vm_compute; discriminate|].
  split; [split; vm_compute; reflexivity|].
  split; [split; vm_compute; reflexivity|].
  intros [_ [Hx _]]. vm_compute in Hx. discriminate.
Qed.

(** C8 (amended).  For every pointer-down, pointer-move, pointer-up
    sequence whose pointer-moves stay within 5 px of the pointer-down
    position: the zoom after pointer-up is the zoom before pointer-down;
    in select mode (no Ctrl or Cmd key) the pan is unchanged too; in pan
    mode the pan is the pan before pointer-down plus the displacement of
    the last pointer-move, and unchanged when there was no pointer-move. *)
Theorem click_transform (rect0 : DOMRect) (down : MouseEvent)
    (moves : list Move) (c_up : option DOMRect) (s : State) :
  Forall (fun m : Move => click_move down m.2) moves ->
  let s' := run (gesture rect0 down moves c_up) s in
  zoom s' = zoom s
  /\ (ctrlKey down || metaKey down = false -> pan s' = pan s)
  /\ (ctrlKey down || metaKey down = true ->
      pan s' = panAfter down (pan s) moves).
Proof.
  intros Hall s'. subst s'. unfold gesture.
  rewrite run_cons, run_app, dispatch_mouseDown. unfold handleMouseDown.
  cbn [run foldl].
  destruct (ctrlKey down || metaKey down) eqn:Hkey.
  - match goal with |- context [run _ ?st] => set (s1 := st) end.
    assert (H1 : panning down (zoom s) (pan s) s1) by (repeat split).
    destruct (panning_moves down (zoom s) (pan s) moves s1 H1) as [H2 Hpan].
    destruct (panning_up down (zoom s) (pan s) c_up _ H2) as [Hz Hp].
    split; [exact Hz|]. split; [discriminate|]. intros _.
    rewrite Hp, Hpan. unfold panAfter. destruct (last moves); done.
  - match goal with |- context [run _ ?st] => set (s1 := st) end.
    assert (H1 : selecting down (zoom s) (pan s) s1) by (repeat split).
    pose proof (selecting_moves down (zoom s) (pan s) moves s1 H1 Hall) as H2.
    destruct (selecting_up down (zoom s) (pan s) c_up _ H2) as [Hz Hp].
    split; [exact Hz|]. split; [intros _; exact Hp | discriminate].
Qed.

(** An instance: a plain click that wanders by (2, -3) px at zoom 2. *)
Lemma click_transform_witness :
  let rect := mkRect 0 0 800 600 in
  let s := setPan (mkPoint 10 20) (setZoom 2 initial) in
  let s' := run (gesture rect (mkMouse 100 100 false false)
                   [(Some rect, mkMouse 102 97 false false)] (Some rect)) s in
  zoom s' = 2%Q /\ pan s' = mkPoint 10 20.
Proof.
  intros rect s s'.
  destruct (click_transform rect (mkMouse 100 100 false false)
              [(Some rect, mkMouse 102 97 false false)] (Some rect) s)
    as (Hz & Hp & _).
  - constructor; [split; vm_compute; discriminate | constructor].
  - split; [exact Hz | apply Hp; reflexivity].
Defined.

(** * The invariant of the transform *)

Lemma transform_inv_reset (s : State) : transform_inv (resetZoom s).
Proof.
  split; [|done]. split; cbn; unfold MIN_ZOOM, MAX_ZOOM; lra.
Qed.

Lemma transform_inv_bounded (s : State) : transform_inv s -> zoom_bounded s.
Proof.
  intros [[Hlo Hhi] _]. unfold MIN_ZOOM in Hlo. split; [lra | exact Hhi].
Qed.

(** Both properties depend on the transform only. *)
Lemma transform_inv_ext (s t : State) :
  zoom t = zoom s -> pan t = pan s -> transform_inv s -> transform_inv t.
Proof. unfold transform_inv, zoom_in_range. intros -> ->. done. Qed.

Lemma zoom_bounded_ext (s t : State) :
  zoom t = zoom s -> zoom_bounded s -> zoom_bounded t.
Proof. unfold zoom_bounded. intros ->. done. Qed.

Lemma transform_inv_dispatch ev s :
  transform_inv (handle ev s) -> transform_inv (dispatch ev s).
Proof.
  unfold dispatch, resetEffect. case_decide; [done|].
  intros _. apply transform_inv_reset.
Qed.

Lemma zoom_bounded_dispatch ev s :
  zoom_bounded (handle ev s) -> zoom_bounded (dispatch ev s).
Proof.
  unfold dispatch, resetEffect. case_decide; [done|].
  intros _. apply transform_inv_bounded, transform_inv_reset.
Qed.

Lemma transform_inv_wheel c e s :
  transform_inv s -> transform_inv (handleWheel c e s).
Proof.
  intros Hinv. unfold handleWheel. destruct c as [rect|]; [|exact Hinv].
  fold (wheelZoom e (zoom s)).
  destruct (Qeq_bool (wheelZoom e (zoom s)) MIN_ZOOM) eqn:Emin.
  - split; [apply clamp_range | done].
  - split; [apply clamp_range|]. intros H1.
    apply Qeq_bool_false in Emin. destruct Emin.
    destruct (negb _); exact H1.
Qed.

Lemma transform_inv_zoomOut s : transform_inv s -> transform_inv (zoomOutClick s).
Proof.
  intros [[Hlo Hhi] _]. unfold zoomOutClick.
  set (nz := Qmax MIN_ZOOM (zoom s - ZOOM_STEP * 2)).
  assert (Hr : (MIN_ZOOM <= nz <= MAX_ZOOM)%Q).
  { subst nz. split; [apply Q.le_max_l|].
    apply Q.max_lub; unfold MIN_ZOOM, MAX_ZOOM, ZOOM_STEP in *; lra. }
  destruct (Qeq_bool nz MIN_ZOOM) eqn:Emin.
  - split; [exact Hr | done].
  - split; [exact Hr|]. intros H1.
    apply Qeq_bool_false in Emin. by destruct Emin.
Qed.

Lemma transform_inv_zoomIn s : transform_inv s -> transform_inv (zoomInClick s).
Proof.
  intros [[Hlo Hhi] _]. unfold zoomInClick.
  set (nz := Qmin MAX_ZOOM (zoom s + ZOOM_STEP * 2)).
  assert (Hr : ((16 # 10) <= nz <= MAX_ZOOM)%Q).
  { subst nz. split; [|apply Q.le_min_l].
    apply Q.min_glb; unfold MIN_ZOOM, MAX_ZOOM, ZOOM_STEP in *; lra. }
  split.
  - split; cbn; fold nz; unfold MIN_ZOOM; lra.
  - cbn. fold nz. intros H1. rewrite H1 in Hr. lra.
Qed.

(** The handlers that leave the transform alone. *)
Lemma handle_frame ev s :
  match ev with
  | EvMouseDown _ _ | EvDragEndTimeout
  | EvFirstPage | EvPrevPage | EvNextPage | EvLastPage
  | EvFirstSpread | EvPrevSpread | EvNextSpread | EvLastSpread
  | EvFlipTimeout | EvModeChange _ | EvThumbLoaded _ _ | EvInfoLoaded _ => True
  | EvMouseMove _ _ => pans ev s = false
  | EvMouseUp _ => zoomsToSelection ev s = false
  | _ => False
  end ->
  zoom (handle ev s) = zoom s /\ pan (handle ev s) = pan s.
Proof.
  destruct ev; intros H; try (exfalso; exact H); cbn [handle].
  - unfold handleMouseDown. destruct container; [|done].
    destruct (ctrlKey e || metaKey e); done.
  - unfold handleMouseMove. cbn in H.
    destruct (isDragging s); [|done]. cbn in H. apply bool_decide_eq_false in H.
    cbn [negb]. destruct (_ || _); cbn; (case_decide; [done|]);
      destruct container; done.
  - destruct (isDragging s) eqn:Hd; [|done]. unfold handleMouseUp.
    destruct (selectionAccepted s) eqn:Hacc; [|done].
    destruct container; [|done].
    cbn in H. rewrite Hd, Hacc in H. done.
  - unfold dragEndTimeout. destruct (dragEndTimers s); done.
  - destruct (_ && _); done.
  - destruct (_ && _); done.
  - destruct (_ && _); done.
  - destruct (_ && _); done.
  - destruct (_ && _); done.
  - destruct (_ && _); [|done]. unfold goPrevSpread. destruct (_ || _); done.
  - destruct (_ && _); [|done]. unfold goNextSpread. destruct (_ || _); done.
  - destruct (_ && _); done.
  - unfold flipTimeout. destruct (flipTimeoutRef s); done.
  - unfold handleModeChange. destruct newMode as [[]|]; done.
  - done.
  - done.
Qed.

Lemma transform_inv_handle ev s :
  transform_inv s -> pans ev s = false -> zoomsToSelection ev s = false ->
  transform_inv (handle ev s).
Proof.
  intros Hinv Hp Hz.
  destruct ev;
    try (match goal with
         | |- transform_inv (handle ?ev s) =>
           destruct (handle_frame ev s ltac:(done)) as [Ez Ep]
         end;
         exact (transform_inv_ext _ _ Ez Ep Hinv)).
  - cbn [handle]. destruct (wheelListener s); [by apply transform_inv_wheel | done].
  - apply transform_inv_reset.
  - cbn. destruct (Qle_bool _ _); [done | by apply transform_inv_zoomOut].
  - cbn. destruct (Qle_bool _ _); [done | by apply transform_inv_zoomIn].
  - cbn. destruct (Qltb _ _); [apply transform_inv_reset | done].
  - apply transform_inv_reset.
Qed.

Lemma handleMouseMove_zoom c e s : zoom (handleMouseMove c e s) = zoom s.
Proof.
  unfold handleMouseMove. destruct (negb (isDragging s)); [done|].
  destruct (_ || _); cbn; case_decide; try done; destruct c; done.
Qed.

Lemma zoom_in_range_bounded (s : State) : zoom_in_range s -> zoom_bounded s.
Proof.
  intros [Hlo Hhi]. unfold MIN_ZOOM in Hlo. split; [lra | exact Hhi].
Qed.

Lemma zoomToSelection_bounded rect sel s :
  rect_positive rect = true -> (20 < sel_w sel)%Q -> (20 < sel_h sel)%Q ->
  zoom_bounded s -> zoom_bounded (zoomToSelection rect sel s).
Proof.
  intros Hrect Hw Hh [Hpos Hhi].
  apply andb_true_iff in Hrect as [Hrw Hrh]. apply Qltb_true in Hrw, Hrh.
  unfold zoomToSelection, zoom_bounded. cbn. split; [|apply Q.le_min_l].
  apply Q.min_glb_lt; [unfold MAX_ZOOM; lra|].
  apply Qmult_lt_0_compat; [exact Hpos|].
  apply Q.min_glb_lt; apply Qlt_shift_div_l; lra.
Qed.

Lemma zoom_bounded_handle ev s :
  event_ok ev = true -> zoom_bounded s -> zoom_bounded (handle ev s).
Proof.
  intros Hok Hb.
  destruct ev;
    try (match goal with
         | |- zoom_bounded (handle ?ev s) =>
           destruct (handle_frame ev s ltac:(done)) as [Ez _]
         end;
         exact (zoom_bounded_ext _ _ Ez Hb)).
  - cbn [handle]. destruct (wheelListener s); [|done].
    unfold handleWheel. destruct container; [|done].
    apply zoom_in_range_bounded, clamp_range.
  - apply transform_inv_bounded, transform_inv_reset.
  - exact (zoom_bounded_ext _ _ (handleMouseMove_zoom _ _ _) Hb).
  - cbn. destruct (isDragging s); [|done]. unfold handleMouseUp.
    destruct (selectionAccepted s) as [sel|] eqn:Hacc; [|done].
    destruct container as [rect|]; [|done].
    apply selectionAccepted_Some in Hacc as (_ & _ & _ & Hw & Hh).
    apply (zoom_bounded_ext (zoomToSelection rect sel s)); [done|].
    by apply zoomToSelection_bounded.
  - cbn. destruct (Qle_bool _ _); [done|]. destruct Hb as [Hpos Hhi].
    unfold zoomOutClick, zoom_bounded. cbn. split.
    + eapply Qlt_le_trans; [|apply Q.le_max_l]. reflexivity.
    + apply Q.max_lub; unfold MIN_ZOOM, MAX_ZOOM, ZOOM_STEP in *; lra.
  - cbn. destruct (Qle_bool _ _); [done|]. destruct Hb as [Hpos Hhi].
    unfold zoomInClick, zoom_bounded. cbn. split; [|apply Q.le_min_l].
    apply Q.min_glb_lt; unfold MAX_ZOOM, ZOOM_STEP; lra.
  - cbn. destruct (Qltb _ _); [|done].
    apply transform_inv_bounded, transform_inv_reset.
  - apply transform_inv_bounded, transform_inv_reset.
Qed.

Lemma reachable_bounded (s : State) : reachable s -> zoom_bounded s.
Proof.
  induction 1 as [| |ev s _ IH Hok].
  - apply transform_inv_bounded. split; [|done].
    split; cbn; unfold MIN_ZOOM, MAX_ZOOM; lra.
  - apply transform_inv_bounded. split; [|done].
    split; cbn; unfold MIN_ZOOM, MAX_ZOOM; lra.
  - by apply zoom_bounded_dispatch, zoom_bounded_handle.
Qed.

Lemma reachable_run (evs : list Event) (s : State) :
  reachable s -> forallb event_ok evs = true -> reachable (run evs s).
Proof.
  revert s. induction evs as [|ev evs IH]; intros s Hs Hok; [exact Hs|].
  cbn in Hok. apply andb_true_iff in Hok as [Hev Hrest].
  rewrite run_cons. apply IH; [|exact Hrest]. by apply reachable_step.
Qed.

(** C1 (counterexample).  A Ctrl-drag of (40, 25) px on the freshly
    mounted viewer, whose zoom is 1, ends in a reachable state with zoom 1
    and pan (40, 25): pan mode is entered at any zoom level. *)
Lemma ctrl_drag_at_zoom_one :
  let rect := mkRect 0 0 800 600 in
  let s := run (gesture rect (mkMouse 100 100 true false)
                  [(Some rect, mkMouse 140 125 true false)] (Some rect))
               initial in
  reachable s
  /\ (zoom s == 1)%Q
  /\ Point_eq (pan s) (mkPoint 40 25)
  /\ ~ transform_inv s.
Proof.
  intros rect s. split; [|split; [|split]].
  - apply reachable_run; [constructor | reflexivity].
  - reflexivity.
  - split; vm_compute; reflexivity.
  - intros [_ H]. specialize (H ltac:(reflexivity)). vm_compute in H.
    discriminate.
Qed.

(** C1 (amended).  In every reachable state the zoom is positive and at
    most 8.  Every operation other than a pointer-move of a pan gesture
    and a pointer-up that zooms to a selection (so: wheel zoom, the zoom
    buttons, reset, double-click, navigation, flips, mode change, document
    change) keeps "zoom in [1, 8], and pan = (0,0) whenever zoom == 1".  A
    pointer-move of a pan gesture keeps the zoom and sets the pan to the
    pan at drag start plus the displacement of the pointer, at every zoom
    level. *)
Theorem transform_invariant :
  (forall s, reachable s -> (0 < zoom s)%Q /\ (zoom s <= 8)%Q)
  /\ transform_inv initial
  /\ (forall ev s,
        transform_inv s -> pans ev s = false -> zoomsToSelection ev s = false ->
        transform_inv (dispatch ev s))
  /\ (forall c e s,
        pans (EvMouseMove c e) s = true ->
        let s' := dispatch (EvMouseMove c e) s in
        zoom s' = zoom s
        /\ pan s' =
           mkPoint (pt_x (panStartRef s) + (clientX e - pt_x (dragStartRef s)))
                   (pt_y (panStartRef s) + (clientY e - pt_y (dragStartRef s)))).
Proof.
  split; [exact reachable_bounded|]. split; [|split].
  - split; [|done]. split; cbn; unfold MIN_ZOOM, MAX_ZOOM; lra.
  - intros ev s Hinv Hp Hz. by apply transform_inv_dispatch, transform_inv_handle.
  - intros c e s Hp s'. subst s'. rewrite dispatch_mouseMove.
    cbn in Hp. apply andb_true_iff in Hp as [Hd Hm].
    apply bool_decide_eq_true in Hm.
    unfold handleMouseMove. rewrite Hd. cbn [negb].
    destruct (_ || _); cbn; rewrite Hm; (case_decide; [|done]); done.
Qed.

(** An instance: one wheel notch in, then a Ctrl-drag by (40, 30) px. *)
Lemma transform_invariant_witness :
  let rect := mkRect 0 0 800 600 in
  let s := dispatch (EvWheel (Some rect) (mkWheel 400 300 (-100))) initial in
  ((0 < zoom s)%Q /\ (zoom s <= 8)%Q)
  /\ transform_inv s
  /\ pan (run [EvMouseDown (Some rect) (mkMouse 10 10 true false);
               EvMouseMove (Some rect) (mkMouse 50 40 true false)] s)
     = mkPoint (pt_x (pan s) + (50 - 10)) (pt_y (pan s) + (40 - 10)).
Proof.
  intros rect s.
  destruct transform_invariant as (Hreach & Hinit & Hstep & Hpan).
  split; [|split].
  - apply Hreach. apply reachable_step; [constructor | reflexivity].
  - apply Hstep; [exact Hinit | reflexivity | reflexivity].
  - apply (Hpan (Some rect) (mkMouse 50 40 true false)
             (dispatch (EvMouseDown (Some rect) (mkMouse 10 10 true false)) s)).
    reflexivity.
Defined.

(** The pointer-up that zooms to a selection has no lower bound: a
    selection dragged beyond the container, twice its size, halves the
    zoom. *)
Example oversized_selection_zooms_out :
  let rect := mkRect 0 0 800 600 in
  let s := run (gesture rect (mkMouse 0 0 false false)
                  [(Some rect, mkMouse 1600 1200 false false)] (Some rect))
               initial in
  reachable s /\ (zoom s == 1 # 2)%Q.
Proof.
  intros rect s. split.
  - apply reachable_run; [constructor | reflexivity].
  - reflexivity.
Qed.

(** * The flip animator *)

Lemma dispatch_nextSpread s :
  dispatch EvNextSpread s = handle EvNextSpread s.
Proof.
  apply dispatch_handle; cbn; destruct (_ && _); try done;
    unfold goNextSpread; destruct (_ || _); done.
Qed.

Lemma dispatch_prevSpread s :
  dispatch EvPrevSpread s = handle EvPrevSpread s.
Proof.
  apply dispatch_handle; cbn; destruct (_ && _); try done;
    unfold goPrevSpread; destruct (_ || _); done.
Qed.

Lemma dispatch_flipTimeout s : dispatch EvFlipTimeout s = flipTimeout s.
Proof.
  apply dispatch_handle; cbn; unfold flipTimeout;
    destruct (flipTimeoutRef s); done.
Qed.

(** A request that changes nothing was rejected. *)
Lemma nextSpread_accepted s :
  dispatch EvNextSpread s <> s ->
  navShown book s = true /\ flipping s = None
  /\ currentSpread s < totalSpreads s - 1
  /\ dispatch EvNextSpread s
     = setFlipTimeout (Some (mkTimer next (totalSpreads s)))
         (setFlipping (Some next) s).
Proof.
  rewrite dispatch_nextSpread. cbn. unfold goNextSpread.
  destruct (navShown book s); [|done].
  destruct (Z.geb_spec (currentSpread s) (totalSpreads s - 1)) as [Hge|Hlt];
    destruct (bool_decide_reflect (flipping s <> None)) as [Hf|Hf];
    cbn; try done.
  intros _. repeat split; try done.
  destruct (flipping s); [by destruct Hf | done].
Qed.

Lemma prevSpread_accepted s :
  dispatch EvPrevSpread s <> s ->
  navShown book s = true /\ flipping s = None
  /\ 0 < currentSpread s
  /\ dispatch EvPrevSpread s
     = setFlipTimeout (Some (mkTimer prev (totalSpreads s)))
         (setFlipping (Some prev) s).
Proof.
  rewrite dispatch_prevSpread. cbn. unfold goPrevSpread.
  destruct (navShown book s); [|done].
  destruct (Z.eqb_spec (currentSpread s) 0) as [Hz|Hnz];
    destruct (Z.leb_spec (currentSpread s) 0) as [Hle|Hgt];
    destruct (bool_decide_reflect (flipping s <> None)) as [Hf|Hf];
    cbn; try done.
  intros _. repeat split; try done.
  destruct (flipping s); [by destruct Hf | done].
Qed.

(** C6.  The completion of a flip after a jump.  With 10 pages (6
    spreads) and the cover shown, "next" is accepted and starts the
    timer; the last-spread button, which stays enabled during a flip,
    then moves to spread 5 and clears the flip state, but does not cancel
    the timer as [goNextSpread], [goPrevSpread] and the unmount cleanup
    do; the timer is still pending, and when it completes the index is
    clamped to 5: it has not advanced by one. *)
Lemma flip_completion_after_jump_does_not_advance :
  let s := run [EvDocumentChange; EvInfoLoaded 10; EvNextSpread; EvLastSpread]
               initial in
  reachable s
  /\ flipTimeoutRef s = Some (mkTimer next 6)
  /\ currentSpread s = 5
  /\ currentSpread (dispatch EvFlipTimeout s) = 5
  /\ currentSpread (dispatch EvFlipTimeout s) <> currentSpread s + 1.
Proof.
  intros s. split; [|split; [|split; [|split]]]; try reflexivity.
  - apply reachable_run; [constructor | reflexivity].
  - discriminate.
Qed.

(** X18.  The flip requests and the completion of the timer.  With the
    current spread in [0, totalSpreads - 1]: while the flip state is not
    none, a next or prev request changes nothing (no spread change, no
    second timer); a request is accepted only when the flip state is none
    and the target spread is in [0, totalSpreads - 1], and it sets the
    flip state and starts the one timer, which closes over the present
    number of spreads, without touching the spread index; when that
    timer completes next, the index has advanced by exactly one in the
    requested direction and the flip state is none.  The completion of
    any pending timer clears the flip state and the timer and moves the
    index it finds by one, clamped: to at most the number of spreads the
    timer closed over, less one, for next, and to at least 0 for prev. *)
Theorem flip_animator (s : State) :
  0 <= currentSpread s <= totalSpreads s - 1 ->
  (flipping s <> None ->
   dispatch EvNextSpread s = s /\ dispatch EvPrevSpread s = s)
  /\ (dispatch EvNextSpread s <> s ->
      let s1 := dispatch EvNextSpread s in
      let s2 := dispatch EvFlipTimeout s1 in
      flipping s = None
      /\ 0 <= currentSpread s + 1 <= totalSpreads s - 1
      /\ currentSpread s1 = currentSpread s
      /\ flipping s1 = Some next
      /\ flipTimeoutRef s1 = Some (mkTimer next (totalSpreads s))
      /\ currentSpread s2 = currentSpread s + 1
      /\ flipping s2 = None /\ flipTimeoutRef s2 = None)
  /\ (dispatch EvPrevSpread s <> s ->
      let s1 := dispatch EvPrevSpread s in
      let s2 := dispatch EvFlipTimeout s1 in
      flipping s = None
      /\ 0 <= currentSpread s - 1 <= totalSpreads s - 1
      /\ currentSpread s1 = currentSpread s
      /\ flipping s1 = Some prev
      /\ flipTimeoutRef s1 = Some (mkTimer prev (totalSpreads s))
      /\ currentSpread s2 = currentSpread s - 1
      /\ flipping s2 = None /\ flipTimeoutRef s2 = None)
  /\ (forall t, flipTimeoutRef s = Some t ->
      let s' := dispatch EvFlipTimeout s in
      flipping s' = None /\ flipTimeoutRef s' = None
      /\ currentSpread s'
         = match tm_dir t with
           | next => Z.min (tm_totalSpreads t - 1) (currentSpread s + 1)
           | prev => Z.max 0 (currentSpread s - 1)
           end).
Proof.
  intros Hrange. split; [|split; [|split]].
  - intros Hf. rewrite dispatch_nextSpread, dispatch_prevSpread.
    cbn. unfold goNextSpread, goPrevSpread.
    rewrite (bool_decide_eq_true_2 _ Hf), !orb_true_r.
    split; destruct (navShown book s); done.
  - intros Hacc s1 s2.
    destruct (nextSpread_accepted s Hacc) as (_ & Hf & Hlt & Hs1).
    subst s2 s1. rewrite dispatch_flipTimeout, Hs1. cbn.
    repeat split; try done; lia.
  - intros Hacc s1 s2.
    destruct (prevSpread_accepted s Hacc) as (_ & Hf & Hlt & Hs1).
    subst s2 s1. rewrite dispatch_flipTimeout, Hs1. cbn.
    repeat split; try done; lia.
  - intros t Ht s'. subst s'. rewrite dispatch_flipTimeout.
    unfold flipTimeout. rewrite Ht. done.
Qed.

(** An instance: ten pages, "next" from the cover, a second request
    during the flip, then the completion. *)
Lemma flip_animator_witness :
  let s := run [EvDocumentChange; EvInfoLoaded 10] initial in
  let s1 := dispatch EvNextSpread s in
  flipping s1 = Some next
  /\ dispatch EvNextSpread s1 = s1 /\ dispatch EvPrevSpread s1 = s1
  /\ currentSpread (dispatch EvFlipTimeout s1) = 1
  /\ flipping (dispatch EvFlipTimeout s1) = None.
Proof.
  intros s s1.
  destruct (flip_animator s) as (_ & Hnext & _); [vm_compute; split; discriminate|].
  destruct Hnext as (_ & _ & _ & Hf1 & _ & Hc2 & Hf2 & _); [discriminate|].
  destruct (flip_animator s1) as (Hrej & _);
    [vm_compute; split; discriminate|].
  split; [exact Hf1|].
  destruct Hrej as [Hn Hp]; [unfold s1; rewrite Hf1; discriminate|].
  split; [exact Hn|]. split; [exact Hp|]. split; [exact Hc2 | exact Hf2].
Defined.

(** * Thumbnail loading *)

Lemma continues_refl api r : continues api r r [].
Proof. split; [by rewrite app_nil_r | done]. Qed.

Lemma continues_trans api r1 r2 r3 n1 n2 :
  continues api r1 r2 n1 -> continues api r2 r3 n2 ->
  continues api r1 r3 (n1 ++ n2).
Proof.
  intros [H1 C1] [H2 C2]. split.
  - by rewrite H2, H1, app_assoc.
  - intros q Hq. by rewrite C2, C1.
Qed.

Section Fetch.
Variables (docSelected : bool) (api : Api) (closedPages : Z)
          (closedCache : gmap Z string).

(** One call: at most one request, for the page asked, and exactly one
    when the page is in range and the callback does not see it cached. *)
Lemma fetchThumb_continues (page : Z) (r : Run) :
  exists new,
    continues api r (fetchThumb docSelected api closedPages closedCache page r).2 new
    /\ new `sublist_of` [page]
    /\ (docSelected = true -> 1 <= page <= closedPages ->
        closedCache !! page = None -> new = [page]).
Proof.
  unfold fetchThumb.
  destruct docSelected; cbn [negb orb].
  2: { exists []. split; [apply continues_refl|].
       split; [apply sublist_nil_l | done]. }
  destruct (Z.ltb_spec page 1) as [Hlt|Hge]; cbn [orb].
  { exists []. split; [apply continues_refl|].
    split; [apply sublist_nil_l | lia]. }
  destruct (Z.gtb_spec page closedPages) as [Hgt|Hle].
  { exists []. split; [apply continues_refl|].
    split; [apply sublist_nil_l | lia]. }
  destruct (truthy_str (closedCache !! page)) eqn:Hseen.
  { exists []. split; [apply continues_refl|].
    split; [apply sublist_nil_l|]. intros _ _ Hnone.
    rewrite Hnone in Hseen. discriminate. }
  exists [page]. split; [|split; done].
  destruct (api page) as [data|] eqn:Hapi; split; cbn; try done.
  intros q Hq. apply lookup_insert_ne. congruence.
Qed.

(** A rejected request leaves the component state as it was. *)
Lemma fetchThumb_failure (page : Z) (r : Run) :
  api page = None -> (fetchThumb docSelected api closedPages closedCache page r).2.2 = r.2.
Proof.
  intros Hfail. unfold fetchThumb.
  destruct (_ || _); [done|]. destruct (truthy_str _); [done|].
  by rewrite Hfail.
Qed.

Lemma fetchEach_continues (pages : list (option Z)) (r : Run) :
  exists new,
    continues api r
      (fetchEach docSelected api closedPages closedCache pages r) new
    /\ new `sublist_of` omap id pages
    /\ (forall p, docSelected = true -> Some p ∈ pages ->
        1 <= p <= closedPages -> closedCache !! p = None -> p ∈ new).
Proof.
  revert r. induction pages as [|o pages IH]; intros r.
  { exists []. split; [apply continues_refl|]. split; [done|].
    intros p _ Hin. by apply elem_of_nil in Hin. }
  cbn [fetchEach foldl].
  set (r1 := match o with
             | Some page => if truthy o then (fetchThumb docSelected api closedPages closedCache page r).2 else r
             | None => r
             end).
  assert (H1 : exists n1, continues api r r1 n1
                 /\ n1 `sublist_of` omap id [o]
                 /\ (forall p, docSelected = true -> o = Some p ->
                     1 <= p <= closedPages -> closedCache !! p = None ->
                     p ∈ n1)).
  { subst r1. destruct o as [page|].
    2: { exists []. split; [apply continues_refl|]. split; [done|]. done. }
    destruct (truthy (Some page)) eqn:Ht.
    - destruct (fetchThumb_continues page r) as (n & Hc & Hsub & Hex).
      exists n. split; [exact Hc|]. split; [exact Hsub|].
      intros p Hdoc [= <-] Hr Hnone. rewrite Hex by done. constructor.
    - exists []. split; [apply continues_refl|].
      split; [apply sublist_nil_l|].
      intros p _ [= <-] Hr _. cbn in Ht.
      destruct (Z.eqb_spec page 0); [lia | discriminate]. }
  destruct H1 as (n1 & Hc1 & Hs1 & Hm1).
  destruct (IH r1) as (n2 & Hc2 & Hs2 & Hm2).
  exists (n1 ++ n2). split; [exact (continues_trans _ _ _ _ _ _ Hc1 Hc2)|].
  split.
  - change (o :: pages) with ([o] ++ pages). rewrite omap_app.
    by apply sublist_app.
  - intros p Hdoc Hin Hr Hnone. apply elem_of_app.
    apply elem_of_cons in Hin as [Ho|Hin]; [left | right]; auto.
Qed.
End Fetch.

(** Closes [x ∉ l] and [NoDup l] for a list of integer expressions that
    linear arithmetic tells apart. *)
Ltac distinct_pages :=
  repeat (apply NoDup_cons; split;
          [repeat (apply not_elem_of_cons; split; [lia|]);
           apply not_elem_of_nil|]);
  apply NoDup_nil_2.

(** The pages [loadPages] asks for are pairwise different. *)
Lemma spread_pages_NoDup (n s : Z) :
  NoDup (omap id
           [sp_left (getSpreadPagesOf n s); sp_right (getSpreadPagesOf n s);
            sp_left (getSpreadPagesOf n (s + 1));
            sp_right (getSpreadPagesOf n (s + 1));
            sp_left (getSpreadPagesOf n (s - 1));
            sp_right (getSpreadPagesOf n (s - 1))]).
Proof.
  unfold getSpreadPagesOf.
  destruct (Z.eqb_spec s 0), (Z.eqb_spec (s + 1) 0), (Z.eqb_spec (s - 1) 0);
    try lia; cbn [sp_left sp_right];
    repeat match goal with
           | |- context [if ?b then Some _ else None] => destruct b
           end;
    cbn; distinct_pages.
Qed.

(** C3 (counterexample).  With ten pages and page 5 shown in single mode,
    a service that rejects the request for page 5 leaves no entry for
    page 5 in the cache: nothing records the failure.  Moving on to page 6
    asks for page 5 again as a neighbour. *)
Lemma failed_fetch_leaves_no_cache_entry :
  let api : Api := fun page => if page =? 5 then None else Some "img"%string in
  let view5 := setCurrentPage 5 (setViewMode single (setTotalPages 10 initial)) in
  let r5 := loadPages true api ∅ view5 ([], view5) in
  let r6 := loadPages true api ∅ (setCurrentPage 6 r5.2) ([], setCurrentPage 6 r5.2) in
  r5.1 = [5; 6; 4]
  /\ pageCache r5.2 !! 5 = None
  /\ pageCache r5.2 !! 6 = Some "img"%string
  /\ r6.1 = [6; 7; 5]
  /\ pageCache r6.2 !! 5 = None.
Proof. repeat split; vm_compute; reflexivity. Qed.

Lemma continues_loading api r x new :
  continues api r x new -> continues api r (x.1, setLoading false x.2) new.
Proof. intros [Hlog Hcache]. by split. Qed.

(** The events that keep the view leave the dependencies of the load
    effect alone. *)
Lemma keepsView_deps (props : Props) (ev : Event) (s : State) :
  keepsView ev = true -> loadDeps props (dispatch ev s) = loadDeps props s.
Proof.
  intros Hev. unfold loadDeps, dispatch.
  destruct (resetEffect_pages s (handle ev s)) as (-> & -> & -> & -> & _).
  destruct ev; try discriminate; cbn [handle].
  - destruct (wheelListener s); [|done].
    unfold handleWheel. destruct container; [|done].
    destruct (Qeq_bool _ MIN_ZOOM); [done|]. destruct (negb _); done.
  - done.
  - unfold handleMouseDown. destruct container; [|done].
    destruct (ctrlKey e || metaKey e); done.
  - unfold handleMouseMove. destruct (negb _); [done|].
    destruct (_ || _); case_decide; try done; destruct container; done.
  - destruct (isDragging s); [|done]. unfold handleMouseUp.
    destruct (selectionAccepted s), container; done.
  - unfold dragEndTimeout. destruct (dragEndTimers s); done.
  - unfold zoomOutClick. destruct (Qle_bool _ _); [done|].
    destruct (Qeq_bool _ _); done.
  - destruct (Qle_bool _ _); done.
  - destruct (Qltb _ _); done.
  - done.
Qed.

(** C3 (amended).  For every page [p] whose raster request is rejected:
    the failure records nothing, the cache entry of [p] after a run of
    [loadPages] is what it was before, and one rejected call leaves the
    whole component state as it was; the load effect sends no request on
    a render that has the project, file name, page count, page, spread
    and mode of the render before it, so none on the re-renders that
    zooming, panning, selecting and the arrival of a thumbnail cause; it
    runs [loadPages] again when one of the six has changed and there are
    a document and pages; and a run of [loadPages] sends at most one
    request per page, and exactly one for [p] when a document is
    selected, [p] is in range and belongs to the view unit on screen or
    to one next to it, and the callback does not see [p] cached. *)
Theorem failed_fetch_not_cached (docSelected : bool) (api : Api)
    (closedCache : gmap Z string) (view : State) (r : Run) (p : Z) :
  api p = None ->
  let r' := loadPages docSelected api closedCache view r in
  pageCache r'.2 !! p = pageCache r.2 !! p
  /\ (fetchThumb docSelected api (totalPages view) closedCache p r).2.2 = r.2
  /\ (forall props prevProps previous,
        loadDeps prevProps previous = loadDeps props view ->
        loadEffect api closedCache (Some (prevProps, previous)) props view r
        = r)
  /\ (forall props ev s,
        keepsView ev = true ->
        loadEffect api closedCache (Some (props, s)) props (dispatch ev s) r
        = r)
  /\ (forall props prevProps previous,
        loadDeps prevProps previous <> loadDeps props view ->
        hasDocument props = true -> totalPages view <> 0 ->
        loadEffect api closedCache (Some (prevProps, previous)) props view r
        = loadPages true api closedCache view (r.1, setLoading true r.2))
  /\ (exists new,
        r'.1 = r.1 ++ new /\ NoDup new
        /\ (docSelected = true -> wanted view p -> 1 <= p <= totalPages view ->
            closedCache !! p = None -> p ∈ new)).
Proof.
  intros Hfail r'.
  assert (Hmain : exists new,
             continues api r r' new /\ NoDup new
             /\ (docSelected = true -> wanted view p ->
                 1 <= p <= totalPages view ->
                 closedCache !! p = None -> p ∈ new)).
  { subst r'. unfold loadPages.
    enough (exists new,
               continues api r
                 (loadThumbs docSelected api closedCache view r) new
               /\ NoDup new
               /\ (docSelected = true -> wanted view p ->
                   1 <= p <= totalPages view ->
                   closedCache !! p = None -> p ∈ new)) as (new & Hc & Hrest).
    { exists new. split; [by apply continues_loading | exact Hrest]. }
    unfold loadThumbs, wanted. destruct (viewMode view).
    - set (fetch := fetchThumb docSelected api (totalPages view) closedCache).
      destruct (fetchThumb_continues docSelected api (totalPages view)
                  closedCache (currentPage view) r) as (n1 & C1 & S1 & E1).
      fold fetch in C1.
      destruct (fetchThumb_continues docSelected api (totalPages view)
                  closedCache (currentPage view + 1)
                  (fetch (currentPage view) r).2) as (n2 & C2 & S2 & E2).
      fold fetch in C2.
      destruct (fetchThumb_continues docSelected api (totalPages view)
                  closedCache (currentPage view - 1)
                  (fetch (currentPage view + 1) (fetch (currentPage view) r).2).2)
        as (n3 & C3 & S3 & E3).
      fold fetch in C3.
      exists (n1 ++ n2 ++ n3). split; [|split].
      + exact (continues_trans _ _ _ _ _ _ C1
                 (continues_trans _ _ _ _ _ _ C2 C3)).
      + apply (sublist_NoDup _
                 [currentPage view; currentPage view + 1; currentPage view - 1]).
        * distinct_pages.
        * apply (sublist_app n1 [_] (n2 ++ n3) [_; _]); [done|].
          apply (sublist_app n2 [_] n3 [_]); done.
      + intros Hdoc Hp Hr Hnone. rewrite !elem_of_app.
        destruct Hp as [->|[->| ->]].
        * left. rewrite (E1 Hdoc Hr Hnone). constructor.
        * right; left. rewrite (E2 Hdoc Hr Hnone). constructor.
        * right; right. rewrite (E3 Hdoc Hr Hnone). constructor.
    - destruct (fetchEach_continues docSelected api (totalPages view)
                  closedCache
                  [sp_left (getSpreadPages view (currentSpread view));
                   sp_right (getSpreadPages view (currentSpread view));
                   sp_left (getSpreadPages view (currentSpread view + 1));
                   sp_right (getSpreadPages view (currentSpread view + 1));
                   sp_left (getSpreadPages view (currentSpread view - 1));
                   sp_right (getSpreadPages view (currentSpread view - 1))] r)
        as (new & C & Hsub & Hin).
      exists new. split; [exact C|]. split.
      + exact (sublist_NoDup _ _ (spread_pages_NoDup _ _) Hsub).
      + intros Hdoc Hp Hr Hnone. by apply Hin. }
  destruct Hmain as (new & [Hlog Hcache] & Hnodup & Hin).
  split; [by apply Hcache|].
  split; [by apply fetchThumb_failure|].
  assert (Hsame : forall props prevProps previous,
            loadDeps prevProps previous = loadDeps props view ->
            loadEffect api closedCache (Some (prevProps, previous)) props view r
            = r).
  { intros props prevProps previous Hdeps. unfold loadEffect.
    cbn [fmap option_fmap option_map fst snd]. rewrite Hdeps.
    by rewrite bool_decide_eq_true_2. }
  split; [exact Hsame|]. split; [|split; [|by exists new]].
  - intros props ev s Hev. unfold loadEffect.
    cbn [fmap option_fmap option_map fst snd].
    rewrite (keepsView_deps props ev s Hev). by rewrite bool_decide_eq_true_2.
  - intros props prevProps previous Hdeps Hdoc Hn. unfold loadEffect.
    cbn [fmap option_fmap option_map fst snd].
    rewrite bool_decide_eq_false_2 by congruence.
    rewrite Hdoc. cbn [negb orb].
    by destruct (Z.eqb_spec (totalPages view) 0).
Qed.

(** An instance: page 5 of 10 in single mode, rejected by the service; a
    wheel notch re-renders without a request, another file name runs the
    effect again. *)
Lemma failed_fetch_not_cached_witness :
  let api : Api := fun page => if page =? 5 then None else Some "img"%string in
  let view := setCurrentPage 5 (setViewMode single (setTotalPages 10 initial)) in
  let props := mkProps (Some "7"%string) (Some "a.pdf"%string) in
  let other := mkProps (Some "7"%string) (Some "b.pdf"%string) in
  let rect := mkRect 0 0 800 600 in
  let r' := loadPages true api ∅ view ([], view) in
  pageCache r'.2 !! 5 = None
  /\ loadEffect api ∅ (Some (props, view)) props view ([], view) = ([], view)
  /\ (loadEffect api ∅ (Some (props, view)) props
        (dispatch (EvWheel (Some rect) (mkWheel 400 300 (-100))) view)
        ([], view)).1 = []
  /\ (loadEffect api ∅ (Some (props, view)) other view ([], view)).1
     = [5; 6; 4]
  /\ exists new, r'.1 = new /\ NoDup new /\ 5 ∈ new.
Proof.
  intros api view props other rect r'.
  destruct (failed_fetch_not_cached true api ∅ view ([], view) 5)
    as (Hc & _ & Hsame & Hkeep & Hrun & new & Hlog & Hnd & Hin);
    [reflexivity|].
  split; [exact Hc|]. split; [by apply Hsame|].
  split; [by rewrite Hkeep|].
  split; [rewrite Hrun; [reflexivity | discriminate | reflexivity
                        | discriminate]|].
  exists new. split; [exact Hlog|]. split; [exact Hnd|].
  apply Hin; [reflexivity | by left | vm_compute; split; discriminate
             | reflexivity].
Defined.

(** * Further properties of the navigation *)

Lemma resetEffect_same (s : State) : resetEffect s s = s.
Proof. unfold resetEffect. by case_decide as H; [|destruct H]. Qed.

Lemma resetEffect_changed (a b : State) :
  currentPage a <> currentPage b \/ viewMode a <> viewMode b ->
  resetEffect a b = resetZoom b.
Proof.
  intros H. unfold resetEffect. case_decide as E; [|done].
  destruct E; destruct H; done.
Qed.

Lemma navShown_true (m : ViewMode) (s : State) :
  navShown m s = true <-> 1 < totalPages s /\ viewMode s = m.
Proof.
  unfold navShown. rewrite andb_true_iff, Z.ltb_lt, bool_decide_eq_true. done.
Qed.

(** X1.  Single-page navigation, with the bar shown and the page in
    range: "next" goes to [min (totalPages, p + 1)], "previous" to
    [max (1, p - 1)], "first" to 1 and "last" to [totalPages], so the page
    stays in [1, totalPages]; a button that does not change the page
    changes nothing at all, and one that changes it resets the zoom to 1,
    the pan to (0,0) and the selection; "previous" undoes "next" below
    the last page. *)
Theorem single_navigation (s : State) :
  navShown single s = true -> 1 <= currentPage s <= totalPages s ->
  let p := currentPage s in
  let n := totalPages s in
  currentPage (dispatch EvNextPage s) = Z.min n (p + 1)
  /\ currentPage (dispatch EvPrevPage s) = Z.max 1 (p - 1)
  /\ currentPage (dispatch EvFirstPage s) = 1
  /\ currentPage (dispatch EvLastPage s) = n
  /\ (forall ev, ev ∈ [EvFirstPage; EvPrevPage; EvNextPage; EvLastPage] ->
      let s' := dispatch ev s in
      1 <= currentPage s' <= n
      /\ (currentPage s' = p -> s' = s)
      /\ (currentPage s' <> p ->
          zoom s' = 1%Q /\ pan s' = origin /\ selectionRect s' = None))
  /\ (p < n -> currentPage (run [EvNextPage; EvPrevPage] s) = p).
Proof.
  intros Hnav Hp p n. subst p n.
  assert (Hcases : forall ev,
             ev ∈ [EvFirstPage; EvPrevPage; EvNextPage; EvLastPage] ->
             exists q, 1 <= q <= totalPages s
               /\ q = match ev with
                      | EvFirstPage => 1
                      | EvPrevPage => Z.max 1 (currentPage s - 1)
                      | EvNextPage => Z.min (totalPages s) (currentPage s + 1)
                      | _ => totalPages s
                      end
               /\ handle ev s = if decide (q = currentPage s) then s
                                else setCurrentPage q s).
  { intros ev Hev.
    repeat (apply elem_of_cons in Hev as [->|Hev]);
      [| | | |by apply elem_of_nil in Hev];
      cbn [handle]; rewrite Hnav; cbn [andb];
      unfold goNextSingle, goPrevSingle;
      eexists; (split; [|split; [reflexivity|]]); try lia.
    all: match goal with
         | |- context [Z.eqb ?a ?b] => destruct (Z.eqb_spec a b)
         end; cbn [negb]; case_decide; try done; lia. }
  assert (Hdisp : forall ev,
             ev ∈ [EvFirstPage; EvPrevPage; EvNextPage; EvLastPage] ->
             exists q, 1 <= q <= totalPages s
               /\ q = match ev with
                      | EvFirstPage => 1
                      | EvPrevPage => Z.max 1 (currentPage s - 1)
                      | EvNextPage => Z.min (totalPages s) (currentPage s + 1)
                      | _ => totalPages s
                      end
               /\ dispatch ev s = if decide (q = currentPage s) then s
                                  else resetZoom (setCurrentPage q s)).
  { intros ev Hev. destruct (Hcases ev Hev) as (q & Hq & Eq & Hh).
    exists q. split; [exact Hq|]. split; [exact Eq|].
    unfold dispatch. rewrite Hh. case_decide.
    - apply resetEffect_same.
    - apply resetEffect_changed. left. cbn. congruence. }
  assert (Hpage : forall ev,
             ev ∈ [EvFirstPage; EvPrevPage; EvNextPage; EvLastPage] ->
             currentPage (dispatch ev s)
             = match ev with
               | EvFirstPage => 1
               | EvPrevPage => Z.max 1 (currentPage s - 1)
               | EvNextPage => Z.min (totalPages s) (currentPage s + 1)
               | _ => totalPages s
               end).
  { intros ev Hev. destruct (Hdisp ev Hev) as (q & Hq & Eq & ->).
    rewrite <- Eq. by case_decide. }
  split; [apply (Hpage EvNextPage); set_unfold; tauto|].
  split; [apply (Hpage EvPrevPage); set_unfold; tauto|].
  split; [apply (Hpage EvFirstPage); set_unfold; tauto|].
  split; [apply (Hpage EvLastPage); set_unfold; tauto|].
  split.
  - intros ev Hev s'. subst s'.
    destruct (Hdisp ev Hev) as (q & Hq & _ & ->).
    case_decide as E; [rewrite <- E at 1 2|]; cbn; repeat split; try lia; done.
  - intros Hlt. rewrite run_cons.
    destruct (Hdisp EvNextPage ltac:(set_unfold; tauto)) as (q & Hq & Eq & Hd).
    rewrite Hd. case_decide as E; [lia|].
    set (s1 := resetZoom (setCurrentPage q s)).
    cbn [run foldl]. unfold dispatch.
    destruct (resetEffect_pages s1 (handle EvPrevPage s1)) as (-> & _).
    cbn [handle]. assert (Hn1 : navShown single s1 = true) by exact Hnav.
    rewrite Hn1. cbn [andb]. unfold goPrevSingle.
    change (currentPage s1) with q.
    destruct (Z.eqb_spec q 1); cbn; lia.
Qed.

(** An instance: page 3 of 10, with zoom 2. *)
Lemma single_navigation_witness :
  let s := setZoom 2 (setCurrentPage 3 (setViewMode single
             (setTotalPages 10 initial))) in
  currentPage (dispatch EvNextPage s) = 4
  /\ zoom (dispatch EvNextPage s) = 1%Q
  /\ currentPage (run [EvNextPage; EvPrevPage] s) = 3.
Proof.
  intros s.
  destruct (single_navigation s) as (Hn & _ & _ & _ & Hall & Hrt);
    [reflexivity | vm_compute; split; discriminate |].
  split; [exact Hn|]. split; [|apply Hrt; reflexivity].
  destruct (Hall EvNextPage) as (_ & _ & Hreset);
    [set_unfold; tauto|].
  apply Hreset. rewrite Hn. discriminate.
Defined.

Lemma totalSpreads_bounds (s : State) :
  2 * totalSpreads s - 2 < totalPages s + 1 <= 2 * totalSpreads s.
Proof. apply totalSpreadsOf_bounds. Qed.

Lemma spreadOfPage_range (n p : Z) :
  1 <= p <= n -> 0 <= spreadOfPage p <= totalSpreadsOf n - 1.
Proof.
  intros Hp. pose proof (totalSpreadsOf_bounds n).
  destruct (spreadOfPage_spec p ltac:(lia)) as [[-> ->]|[Hp2 ->]]; [lia|].
  pose proof (Z.div_mod p 2 ltac:(lia)).
  pose proof (Z.mod_pos_bound p 2 ltac:(lia)). lia.
Qed.

Lemma pageOfSpread_range (n sp : Z) :
  1 <= n -> 0 <= sp <= totalSpreadsOf n - 1 ->
  1 <= pageOfSpread (getSpreadPagesOf n sp) <= n.
Proof.
  intros Hn Hsp. pose proof (totalSpreadsOf_bounds n).
  unfold getSpreadPagesOf. destruct (Z.eqb_spec sp 0) as [->|Hne].
  - cbn. lia.
  - destruct (Z.leb_spec (sp * 2) n); [|lia].
    rewrite (pageOfSpread_left _ (sp * 2)); [lia | reflexivity | lia].
Qed.

(** Exposes the navigation fields of an updated state. *)
Ltac nav_fields :=
  unfold goNextSingle, goPrevSingle, firstSpreadClick, lastSpreadClick,
    setCurrentPage, setCurrentSpread, setFlipping, setFlipTimeout, setViewMode,
    totalSpreads;
  cbn [currentPage totalPages currentSpread flipTimeoutRef].

(** X2.  Navigation keeps the view in range.  In a state whose document
    has pages, whose page is in [1, totalPages] and whose spread is in
    [0, totalSpreads - 1], every event other than a document change and
    the arrival of a page count leaves the page count as it is and the
    page and the spread in range: requests past either end are clamped
    or ignored. *)
Theorem navigation_in_range (ev : Event) (s : State) :
  nav_inv s -> ev <> EvDocumentChange -> (forall n, ev <> EvInfoLoaded n) ->
  totalPages (dispatch ev s) = totalPages s /\ nav_inv (dispatch ev s).
Proof.
  intros (Hn & Hp & Hsp & Htm) Hdoc Hinfo.
  pose proof (totalSpreads_bounds s) as Hts.
  assert (Hh : totalPages (handle ev s) = totalPages s
               /\ nav_inv (handle ev s)).
  { unfold nav_inv, totalSpreads in *.
    destruct ev; try done; cbn [handle].
    - destruct (wheelListener s); [|done].
      pose proof (handleWheel_pages container e s) as [Ep _].
      unfold handleWheel in *. destruct container; [|done].
      destruct (Qeq_bool _ MIN_ZOOM); [done|]. destruct (negb _); done.
    - unfold handleMouseDown. destruct container; [|done].
      destruct (ctrlKey e || metaKey e); done.
    - unfold handleMouseMove. destruct (negb _); [done|].
      destruct (_ || _); case_decide; try done; destruct container; done.
    - destruct (isDragging s); [|done]. unfold handleMouseUp.
      destruct (selectionAccepted s), container; done.
    - unfold dragEndTimeout. destruct (dragEndTimers s); done.
    - unfold zoomOutClick. destruct (Qle_bool _ _); [done|].
      destruct (Qeq_bool _ _); done.
    - destruct (Qle_bool _ _); done.
    - destruct (Qltb _ _); done.
    - destruct (_ && _); [|done]. nav_fields. repeat split; try done; lia.
    - destruct (_ && _); [|done]. nav_fields. repeat split; try done; lia.
    - destruct (_ && _); [|done]. nav_fields. repeat split; try done; lia.
    - destruct (_ && _); [|done]. nav_fields. repeat split; try done; lia.
    - destruct (_ && _); [|done]. nav_fields. repeat split; try done; lia.
    - destruct (_ && _); [|done]. unfold goPrevSpread.
      destruct (_ || _); [done|]. nav_fields. repeat split; try done; try lia.
      all: by intros t [= <-].
    - destruct (_ && _); [|done]. unfold goNextSpread.
      destruct (_ || _); [done|]. nav_fields. repeat split; try done; try lia.
      all: by intros t [= <-].
    - destruct (_ && _); [|done]. nav_fields.
      repeat split; try done; lia.
    - unfold flipTimeout. destruct (flipTimeoutRef s) as [t|] eqn:Et;
        [|repeat split; try done; try lia; intros; congruence].
      specialize (Htm t eq_refl). nav_fields. rewrite Htm.
      destruct (tm_dir t); repeat split; try done; lia.
    - unfold handleModeChange. destruct newMode as [[]|]; [| |done].
      + nav_fields. split; [done|]. split; [done|]. split; [|done].
        by apply pageOfSpread_range.
      + nav_fields. split; [done|]. split; [done|]. split; [done|].
        split; [|done]. by apply spreadOfPage_range.
    - by destruct (Hinfo page_count). }
  destruct Hh as [Ht Hinv]. unfold dispatch, nav_inv, totalSpreads in *.
  destruct (resetEffect_pages s (handle ev s))
    as (-> & -> & -> & _ & _ & -> & _). done.
Qed.

(** An instance: "next" on the last page of 10 stays on page 10. *)
Lemma navigation_in_range_witness :
  let s := setCurrentPage 10 (setViewMode single (setTotalPages 10 initial)) in
  currentPage (dispatch EvNextPage s) = 10 /\ nav_inv (dispatch EvNextPage s).
Proof.
  intros s. split; [reflexivity|].
  apply (navigation_in_range EvNextPage s); [|discriminate|discriminate].
  vm_compute. repeat split; discriminate.
Defined.

(** The book at rest: the bar is shown, no flip is running and no timer
    is pending. *)
Lemma flip_next_step (s : State) :
  navShown book s = true -> flipping s = None -> flipTimeoutRef s = None ->
  let s' := run [EvNextSpread; EvFlipTimeout] s in
  navShown book s' = true /\ flipping s' = None /\ flipTimeoutRef s' = None
  /\ totalPages s' = totalPages s
  /\ currentSpread s' = if currentSpread s >=? totalSpreads s - 1
                        then currentSpread s else currentSpread s + 1.
Proof.
  intros Hnav Hf Ht s'. subst s'.
  rewrite run_cons, dispatch_nextSpread. cbn [run foldl handle].
  rewrite dispatch_flipTimeout, Hnav, Hf. unfold goNextSpread. rewrite Hf.
  destruct (Z.geb_spec (currentSpread s) (totalSpreads s - 1)) as [Hge|Hlt];
    cbn.
  - unfold flipTimeout. rewrite Ht. done.
  - repeat split; try done. lia.
Qed.

Lemma flip_prev_step (s : State) :
  navShown book s = true -> flipping s = None -> flipTimeoutRef s = None ->
  let s' := run [EvPrevSpread; EvFlipTimeout] s in
  navShown book s' = true /\ flipping s' = None /\ flipTimeoutRef s' = None
  /\ totalPages s' = totalPages s
  /\ currentSpread s' = if currentSpread s <=? 0
                        then currentSpread s else currentSpread s - 1.
Proof.
  intros Hnav Hf Ht s'. subst s'.
  rewrite run_cons, dispatch_prevSpread. cbn [run foldl handle].
  rewrite dispatch_flipTimeout, Hnav, Hf. unfold goPrevSpread. rewrite Hf.
  destruct (Z.eqb_spec (currentSpread s) 0) as [Hz|Hnz];
    destruct (Z.leb_spec (currentSpread s) 0) as [Hle|Hgt]; try lia; cbn;
    try (unfold flipTimeout; rewrite Ht; done).
  repeat split; try done. lia.
Qed.

(** X3.  Flips compose.  With the book at rest (bar shown, no flip
    running, no timer pending) and the spread in range, [k] "next"
    requests, each followed by the completion of its timer, lead to
    spread [min (totalSpreads - 1, s + k)], and [k] "previous" requests
    to [max (0, s - k)]; the book is at rest again afterwards. *)
Theorem flips_compose (k : nat) (s : State) :
  navShown book s = true -> flipping s = None -> flipTimeoutRef s = None ->
  0 <= currentSpread s <= totalSpreads s - 1 ->
  let fwd := run (flips EvNextSpread k) s in
  let bwd := run (flips EvPrevSpread k) s in
  currentSpread fwd = Z.min (totalSpreads s - 1) (currentSpread s + Z.of_nat k)
  /\ currentSpread bwd = Z.max 0 (currentSpread s - Z.of_nat k)
  /\ flipping fwd = None /\ flipTimeoutRef fwd = None
  /\ flipping bwd = None /\ flipTimeoutRef bwd = None.
Proof.
  revert s. induction k as [|k IH]; intros s Hnav Hf Ht Hr fwd bwd.
  { subst fwd bwd. cbn. repeat split; try done; lia. }
  subst fwd bwd. unfold flips in *. cbn [replicate concat].
  rewrite !run_app.
  destruct (flip_next_step s Hnav Hf Ht) as (Hn1 & Hf1 & Ht1 & Hp1 & Hc1).
  destruct (flip_prev_step s Hnav Hf Ht) as (Hn2 & Hf2 & Ht2 & Hp2 & Hc2).
  set (s1 := run [EvNextSpread; EvFlipTimeout] s) in *.
  set (s2 := run [EvPrevSpread; EvFlipTimeout] s) in *.
  assert (Hts1 : totalSpreads s1 = totalSpreads s)
    by (unfold totalSpreads; by rewrite Hp1).
  assert (Hts2 : totalSpreads s2 = totalSpreads s)
    by (unfold totalSpreads; by rewrite Hp2).
  assert (Hr1 : 0 <= currentSpread s1 <= totalSpreads s1 - 1).
  { rewrite Hts1, Hc1.
    destruct (Z.geb_spec (currentSpread s) (totalSpreads s - 1)); lia. }
  assert (Hr2 : 0 <= currentSpread s2 <= totalSpreads s2 - 1).
  { rewrite Hts2, Hc2. destruct (Z.leb_spec (currentSpread s) 0); lia. }
  destruct (IH s1 Hn1 Hf1 Ht1 Hr1) as (Ea & _ & Fa & Ta & _).
  destruct (IH s2 Hn2 Hf2 Ht2 Hr2) as (_ & Eb & _ & _ & Fb & Tb).
  rewrite Ea, Eb, Hts1, Hc1, Hc2.
  repeat split; try done.
  - destruct (Z.geb_spec (currentSpread s) (totalSpreads s - 1)); lia.
  - destruct (Z.leb_spec (currentSpread s) 0); lia.
Qed.

(** An instance: ten pages, three times "next" from the cover: spread 3,
    pages 6 and 7. *)
Lemma flips_compose_witness :
  let s := run [EvDocumentChange; EvInfoLoaded 10] initial in
  let s' := run (flips EvNextSpread 3) s in
  currentSpread s' = 3
  /\ getSpreadPages s' (currentSpread s') = mkSpread (Some 6) (Some 7).
Proof.
  intros s s'.
  destruct (flips_compose 3 s) as (E & _);
    [reflexivity | reflexivity | reflexivity | vm_compute; split; discriminate|].
  split; [exact E | reflexivity].
Defined.

(** X4.  The spreads partition the pages.  For a document of [n] pages,
    every page [p] in [1, n] is the left or the right page of the spread
    the single-to-book conversion gives for it, that spread is in
    [0, totalSpreads - 1], and no other spread [s >= 0] holds [p];
    the last spread holds the last page. *)
Theorem spreads_partition_pages (n p : Z) :
  1 <= p <= n ->
  let holds s q :=
    sp_left (getSpreadPagesOf n s) = Some q
    \/ sp_right (getSpreadPagesOf n s) = Some q in
  0 <= spreadOfPage p <= totalSpreadsOf n - 1
  /\ holds (spreadOfPage p) p
  /\ (forall s, 0 <= s -> holds s p -> s = spreadOfPage p)
  /\ holds (totalSpreadsOf n - 1) n.
Proof.
  intros Hp holds. subst holds. cbv beta.
  pose proof (totalSpreadsOf_bounds n) as Hts.
  split; [by apply spreadOfPage_range|].
  assert (Hin : forall s q, 0 <= s ->
            (sp_left (getSpreadPagesOf n s) = Some q
             \/ sp_right (getSpreadPagesOf n s) = Some q) ->
            (s = 0 /\ q = 1) \/ (1 <= s /\ (q = 2 * s \/ q = 2 * s + 1))).
  { intros s q Hs. unfold getSpreadPagesOf.
    destruct (Z.eqb_spec s 0) as [->|Hne]; cbn [sp_left sp_right].
    - intros [H|H]; [discriminate|]. injection H as <-. by left.
    - destruct (_ <=? _), (_ <=? _); intros [H|H]; try discriminate;
        injection H as <-; right; lia. }
  assert (Hspread : forall q, 1 <= q ->
            (q = 1 /\ spreadOfPage q = 0)
            \/ (2 <= q /\ 2 * spreadOfPage q <= q <= 2 * spreadOfPage q + 1)).
  { intros q Hq. destruct (spreadOfPage_spec q Hq) as [[-> ->]|[Hq2 ->]];
      [by left|]. right.
    pose proof (Z.div_mod q 2 ltac:(lia)).
    pose proof (Z.mod_pos_bound q 2 ltac:(lia)). lia. }
  split; [|split].
  - unfold getSpreadPagesOf.
    destruct (Hspread p ltac:(lia)) as [[-> ->]|[Hp2 Hb]]; [by right|].
    destruct (Z.eqb_spec (spreadOfPage p) 0) as [E|_]; [lia|].
    cbn [sp_left sp_right].
    destruct (Z.leb_spec (spreadOfPage p * 2) n); [|lia].
    destruct (Z.eq_dec p (spreadOfPage p * 2)) as [E|E].
    + left. by rewrite <- E.
    + right. destruct (Z.leb_spec (spreadOfPage p * 2 + 1) n); [|lia].
      f_equal. lia.
  - intros s Hs Hh. destruct (Hin s p Hs Hh) as [[-> ->]|[Hs1 Hq]];
      [reflexivity|].
    destruct (Hspread p ltac:(lia)) as [[-> _]|[_ Hb]]; lia.
  - unfold getSpreadPagesOf.
    destruct (Z.eqb_spec (totalSpreadsOf n - 1) 0) as [E|E].
    + right. cbn. f_equal. lia.
    + cbn [sp_left sp_right].
      destruct (Z.leb_spec ((totalSpreadsOf n - 1) * 2) n); [|lia].
      destruct (Z.leb_spec ((totalSpreadsOf n - 1) * 2 + 1) n);
        [right | left]; f_equal; lia.
Qed.

(** An instance: page 7 of 10 is on spread 3 and on no other. *)
Lemma spreads_partition_pages_witness :
  spreadOfPage 7 = 3
  /\ sp_right (getSpreadPagesOf 10 3) = Some 7
  /\ sp_left (getSpreadPagesOf 10 5) = Some 10.
Proof.
  destruct (spreads_partition_pages 10 7) as (_ & _ & Huniq & Hlast); [lia|].
  split; [symmetry; apply Huniq; [lia | by right]|].
  split; [reflexivity|].
  destruct Hlast as [H|H]; [exact H | discriminate].
Defined.

(** X5.  Turning the pages of the book never touches the transform: a
    flip request, the completion of a flip and the first- and last-spread
    buttons leave the zoom, the pan and the selection as they are (only a
    change of page or of mode resets them). *)
Theorem spread_change_keeps_transform (ev : Event) (s : State) :
  ev ∈ spreadEvents ->
  let s' := dispatch ev s in
  zoom s' = zoom s /\ pan s' = pan s /\ selectionRect s' = selectionRect s
  /\ currentPage s' = currentPage s /\ viewMode s' = viewMode s.
Proof.
  intros Hev s'. subst s'.
  assert (Hh : zoom (handle ev s) = zoom s /\ pan (handle ev s) = pan s
               /\ selectionRect (handle ev s) = selectionRect s
               /\ currentPage (handle ev s) = currentPage s
               /\ viewMode (handle ev s) = viewMode s).
  { unfold spreadEvents in Hev.
    repeat (apply elem_of_cons in Hev as [->|Hev]);
      [| | | | |by apply elem_of_nil in Hev]; cbn [handle].
    - destruct (_ && _); done.
    - destruct (_ && _); [|done]. unfold goPrevSpread. destruct (_ || _); done.
    - destruct (_ && _); [|done]. unfold goNextSpread. destruct (_ || _); done.
    - destruct (_ && _); done.
    - unfold flipTimeout. destruct (flipTimeoutRef s); done. }
  destruct Hh as (Hz & Hp & Hs & Hc & Hm).
  rewrite dispatch_handle by done. done.
Qed.

(** An instance: at zoom 2, the last-spread button of a 10-page book. *)
Lemma spread_change_keeps_transform_witness :
  let s := setZoom 2 (run [EvDocumentChange; EvInfoLoaded 10] initial) in
  currentSpread (dispatch EvLastSpread s) = 5
  /\ zoom (dispatch EvLastSpread s) = 2%Q.
Proof.
  intros s. split; [reflexivity|].
  destruct (spread_change_keeps_transform EvLastSpread s) as (Hz & _);
    [unfold spreadEvents; set_unfold; tauto | exact Hz].
Defined.

(** X6.  A document of at most one page has nothing to navigate: the
    eight buttons of the navigation bar change nothing, and in book mode
    the "next" and "previous" handlers themselves refuse, the cover being
    the only spread. *)
Theorem no_navigation_without_pages (ev : Event) (s : State) :
  totalPages s <= 1 -> ev ∈ navButtons ->
  dispatch ev s = s
  /\ (0 <= totalPages s -> 0 <= currentSpread s -> goNextSpread s = s)
  /\ (currentSpread s <= 0 -> goPrevSpread s = s).
Proof.
  intros Hn Hev. split; [|split].
  - assert (Hnav : forall m, navShown m s = false).
    { intros m. unfold navShown. by destruct (Z.ltb_spec 1 (totalPages s)); [lia|]. }
    assert (Hh : handle ev s = s).
    { unfold navButtons in Hev.
      repeat (apply elem_of_cons in Hev as [->|Hev]);
        [| | | | | | | |by apply elem_of_nil in Hev];
        cbn [handle]; by rewrite Hnav. }
    unfold dispatch. rewrite Hh. apply resetEffect_same.
  - intros H0 Hs. unfold goNextSpread.
    pose proof (totalSpreads_bounds s).
    by destruct (Z.geb_spec (currentSpread s) (totalSpreads s - 1)); [|lia].
  - intros Hs. unfold goPrevSpread.
    by destruct (Z.leb_spec (currentSpread s) 0); [|lia].
Qed.

(** An instance: a one-page document in book mode. *)
Lemma no_navigation_without_pages_witness :
  let s := run [EvDocumentChange; EvInfoLoaded 1] initial in
  dispatch EvNextSpread s = s /\ goNextSpread s = s.
Proof.
  intros s.
  destruct (no_navigation_without_pages EvNextSpread s) as (Hd & Hn & _);
    [vm_compute; discriminate | unfold navButtons; set_unfold; tauto |].
  split; [exact Hd | apply Hn; vm_compute; discriminate].
Defined.

(** X7.  A change of mode never alters the page count, the cache or a
    running flip; [null] as the new mode changes nothing; and a change to
    a mode other than the present one sets that mode and resets the zoom
    to 1, the pan to (0,0) and the selection. *)
Theorem mode_change_effects (m : option ViewMode) (s : State) :
  let s' := dispatch (EvModeChange m) s in
  totalPages s' = totalPages s /\ pageCache s' = pageCache s
  /\ flipping s' = flipping s /\ flipTimeoutRef s' = flipTimeoutRef s
  /\ (m = None -> s' = s)
  /\ (forall v, m = Some v -> v <> viewMode s ->
      viewMode s' = v /\ zoom s' = 1%Q /\ pan s' = origin
      /\ selectionRect s' = None).
Proof.
  intros s'. subst s'. unfold dispatch.
  destruct (resetEffect_pages s (handle (EvModeChange m) s))
    as (_ & _ & -> & Hm & -> & -> & ->).
  cbn [handle]. unfold handleModeChange.
  split; [by destruct m as [[]|]|]. split; [by destruct m as [[]|]|].
  split; [by destruct m as [[]|]|]. split; [by destruct m as [[]|]|].
  split.
  - intros ->. apply resetEffect_same.
  - intros v -> Hv. rewrite resetEffect_changed.
    + by destruct v.
    + right. destruct v; cbn; congruence.
Qed.

(** An instance: from book mode to single mode at zoom 3. *)
Lemma mode_change_effects_witness :
  let s := setZoom 3 (run [EvDocumentChange; EvInfoLoaded 10] initial) in
  let s' := dispatch (EvModeChange (Some single)) s in
  viewMode s' = single /\ zoom s' = 1%Q /\ totalPages s' = 10.
Proof.
  intros s s'.
  destruct (mode_change_effects (Some single) s) as (Hn & _ & _ & _ & _ & Hch).
  destruct (Hch single) as (Hm & Hz & _); [reflexivity | discriminate |].
  split; [exact Hm|]. split; [exact Hz|]. exact Hn.
Defined.

(** X8.  A change of document does not cancel a pending flip.  It resets
    the page to 1, the spread to 0, the page count to 0 and the cache, and
    clears the flip state, but the timer stays live; when the timer of a
    "next" flip of a book with at least two spreads completes afterwards,
    the spread index of the new document moves from 0 to 1. *)
Theorem document_change_keeps_flip_timer (s : State) (t : FlipTimer) :
  flipTimeoutRef s = Some t ->
  let s1 := dispatch EvDocumentChange s in
  let s2 := dispatch EvFlipTimeout s1 in
  currentPage s1 = 1 /\ currentSpread s1 = 0 /\ totalPages s1 = 0
  /\ pageCache s1 = ∅ /\ flipping s1 = None
  /\ zoom s1 = 1%Q /\ pan s1 = origin
  /\ flipTimeoutRef s1 = Some t
  /\ (tm_dir t = next -> 2 <= tm_totalSpreads t ->
      currentSpread s2 = 1 /\ totalPages s2 = 0)
  /\ (tm_dir t = prev -> currentSpread s2 = 0).
Proof.
  intros Ht s1 s2.
  assert (H1 : currentPage s1 = 1 /\ currentSpread s1 = 0 /\ totalPages s1 = 0
               /\ pageCache s1 = ∅ /\ flipping s1 = None
               /\ zoom s1 = 1%Q /\ pan s1 = origin
               /\ flipTimeoutRef s1 = Some t).
  { subst s1. unfold dispatch, resetEffect. cbn [handle].
    case_decide; repeat split; done. }
  destruct H1 as (Hp & Hs & Hn & Hc & Hf & Hz & Hpan & Ht1).
  do 8 (split; [done|]).
  subst s2. rewrite dispatch_flipTimeout. unfold flipTimeout. rewrite Ht1.
  split.
  - intros Hd Hge. rewrite Hd. cbn. rewrite Hs. split; [lia | exact Hn].
  - intros Hd. rewrite Hd. cbn. rewrite Hs. lia.
Qed.

(** An instance: "next" on a 10-page book, then another document. *)
Lemma document_change_keeps_flip_timer_witness :
  let s := run [EvDocumentChange; EvInfoLoaded 10; EvNextSpread] initial in
  currentSpread (run [EvDocumentChange; EvFlipTimeout] s) = 1
  /\ totalPages (run [EvDocumentChange; EvFlipTimeout] s) = 0.
Proof.
  intros s.
  destruct (document_change_keeps_flip_timer s (mkTimer next 6))
    as (_ & _ & _ & _ & _ & _ & _ & _ & Hn & _); [reflexivity|].
  apply Hn; [reflexivity | vm_compute; discriminate].
Defined.

(** * Further properties of the transform *)

Lemma Qle_bool_false (a b : Q) : Qle_bool a b = false <-> (b < a)%Q.
Proof.
  rewrite <- not_true_iff_false, Qle_bool_iff. split.
  - apply Qnot_le_lt.
  - intros H1 H2. exact (Qlt_not_le _ _ H1 H2).
Qed.

Lemma dispatch_zoomIn s : dispatch EvZoomIn s = handle EvZoomIn s.
Proof. apply dispatch_handle; cbn; by destruct (Qle_bool _ _). Qed.

Lemma dispatch_zoomOut s : dispatch EvZoomOut s = handle EvZoomOut s.
Proof.
  apply dispatch_handle; cbn; destruct (Qle_bool _ _); try done;
    unfold zoomOutClick; by destruct (Qeq_bool _ _).
Qed.

(** X10.  The zoom buttons.  At a zoom [z] in [1, 8]: the zoom-out
    button does nothing at [z <= 1] and the zoom-in button nothing at
    [z >= 8]; zoom-in never changes the pan, never lowers the zoom, keeps
    it at most 8 and raises it below 8; zoom-out never raises the zoom,
    keeps it at least 1 and lowers it above 1; and zoom-out sets the pan
    to (0,0) when the zoom it gives is 1 and leaves the pan alone when it
    is not. *)
Theorem zoom_buttons (s : State) :
  (1 <= zoom s)%Q -> (zoom s <= 8)%Q ->
  let up := dispatch EvZoomIn s in
  let down := dispatch EvZoomOut s in
  ((zoom s <= 1)%Q -> down = s)
  /\ ((8 <= zoom s)%Q -> up = s)
  /\ pan up = pan s
  /\ (zoom s <= zoom up)%Q /\ (zoom up <= 8)%Q
  /\ ((zoom s < 8)%Q -> (zoom s < zoom up)%Q)
  /\ (1 <= zoom down)%Q /\ (zoom down <= zoom s)%Q
  /\ ((1 < zoom s)%Q -> (zoom down < zoom s)%Q)
  /\ ((1 < zoom s)%Q -> (zoom down == 1)%Q -> pan down = origin)
  /\ (~ (zoom down == 1)%Q -> pan down = pan s).
Proof.
  intros Hlo Hhi up down. subst up down.
  rewrite !dispatch_zoomIn, !dispatch_zoomOut. cbn [handle].
  assert (Hup : let u := if Qle_bool MAX_ZOOM (zoom s) then s
                         else zoomInClick s in
                pan u = pan s /\ (zoom s <= zoom u)%Q /\ (zoom u <= 8)%Q
                /\ ((zoom s < 8)%Q -> (zoom s < zoom u)%Q)).
  { destruct (Qle_bool MAX_ZOOM (zoom s)) eqn:E; cbv zeta.
    - apply Qle_bool_iff in E. unfold MAX_ZOOM in E.
      repeat split; try done; lra.
    - unfold zoomInClick, MAX_ZOOM, ZOOM_STEP. cbn [zoom pan setZoom].
      split; [done|]. split; [apply Q.min_glb; lra|].
      split; [apply Q.le_min_l|]. intros Hlt. apply Q.min_glb_lt; lra. }
  assert (Hdown : let d := if Qle_bool (zoom s) MIN_ZOOM then s
                           else zoomOutClick s in
                  (1 <= zoom d)%Q /\ (zoom d <= zoom s)%Q
                  /\ ((1 < zoom s)%Q -> (zoom d < zoom s)%Q)
                  /\ ((1 < zoom s)%Q -> (zoom d == 1)%Q -> pan d = origin)
                  /\ (~ (zoom d == 1)%Q -> pan d = pan s)).
  { destruct (Qle_bool (zoom s) MIN_ZOOM) eqn:E; cbv zeta.
    - apply Qle_bool_iff in E. unfold MIN_ZOOM in E.
      repeat split; try done; lra.
    - unfold zoomOutClick, MIN_ZOOM, ZOOM_STEP.
      set (nz := Qmax 1 (zoom s - (3 # 10) * 2)).
      assert (Hnz : (1 <= nz)%Q /\ (nz <= zoom s)%Q
                    /\ ((1 < zoom s)%Q -> (nz < zoom s)%Q)).
      { subst nz. split; [apply Q.le_max_l|].
        split; [apply Q.max_lub; lra|]. intros Hgt. apply Q.max_lub_lt; lra. }
      destruct Hnz as (H1 & H2 & H3).
      destruct (Qeq_bool nz 1) eqn:Enz; cbn [zoom pan setZoom setPan].
      + repeat split; try done.
        intros Hne. apply Qeq_bool_true in Enz. by destruct Hne.
      + repeat split; try done.
        intros _ Heq. apply Qeq_bool_false in Enz. by destruct Enz. }
  cbv zeta in Hup, Hdown.
  destruct Hup as (U1 & U2 & U3 & U4).
  destruct Hdown as (D1 & D2 & D3 & D4 & D5).
  split.
  { intros H. by rewrite (proj2 (Qle_bool_iff (zoom s) MIN_ZOOM) H). }
  split.
  { intros H. by rewrite (proj2 (Qle_bool_iff MAX_ZOOM (zoom s)) H). }
  repeat split; done.
Qed.

(** An instance: the two buttons at zoom 2 with pan (10, 20), and
    zoom-out at zoom 1.3. *)
Lemma zoom_buttons_witness :
  let s := setPan (mkPoint 10 20) (setZoom 2 initial) in
  let t := setPan (mkPoint 10 20) (setZoom (13 # 10) initial) in
  (zoom s < zoom (dispatch EvZoomIn s))%Q
  /\ pan (dispatch EvZoomOut s) = mkPoint 10 20
  /\ pan (dispatch EvZoomOut t) = origin.
Proof.
  intros s t.
  destruct (zoom_buttons s)
    as (_ & _ & _ & _ & _ & Hup & _ & _ & _ & _ & Hkeep);
    [discriminate | discriminate |].
  destruct (zoom_buttons t)
    as (_ & _ & _ & _ & _ & _ & _ & _ & _ & Hreset & _);
    [discriminate | discriminate |].
  split; [apply Hup; reflexivity|].
  split; [apply Hkeep; discriminate | apply Hreset; reflexivity].
Defined.

(** * Further properties of the gestures *)

Lemma selectingFrom_move sx sy c e st :
  selectingFrom sx sy st -> selectingFrom sx sy (dispatch (EvMouseMove c e) st).
Proof.
  intros (Hd & Hm & sel & Hsel & Hx & Hy).
  rewrite dispatch_mouseMove. unfold handleMouseMove. rewrite Hd. cbn [negb].
  destruct (_ || _); simpl; rewrite Hm; (case_decide; [done|]);
    destruct c; simpl; rewrite ?Hsel; repeat split; try done;
    eexists; (split; [first [reflexivity | eassumption]|]); done.
Qed.

Lemma selectingFrom_moves sx sy (moves : list Move) st :
  selectingFrom sx sy st -> selectingFrom sx sy (run (moveEvents moves) st).
Proof.
  revert st. induction moves as [|m ms IH]; intros st Hst; [exact Hst|].
  unfold moveEvents. cbn [map]. rewrite run_cons. apply IH.
  by apply selectingFrom_move.
Qed.

(** X12.  The selection rectangle is the bounding box of the pointer-down
    position and the present pointer position.  After a pointer-down
    without Ctrl or Cmd and any pointer-moves, the last of them over the
    mounted container: a rectangle exists, it keeps the pointer-down
    position as its start, its width and height are not negative, and
    its corners [(x, y)] and [(x + w, y + h)] are the componentwise
    minimum and maximum of the two positions, whatever the moves in
    between were. *)
Theorem selection_is_bounding_box (rect0 : DOMRect) (down : MouseEvent)
    (moves : list Move) (rect : DOMRect) (e : MouseEvent) (s : State) :
  ctrlKey down || metaKey down = false ->
  let s' := run (EvMouseDown (Some rect0) down
                 :: moveEvents (moves ++ [(Some rect, e)])) s in
  let sx := (clientX down - rect_left rect0)%Q in
  let sy := (clientY down - rect_top rect0)%Q in
  let cx := (clientX e - rect_left rect)%Q in
  let cy := (clientY e - rect_top rect)%Q in
  exists sel,
    selectionRect s' = Some sel
    /\ startX sel = sx /\ startY sel = sy
    /\ (0 <= sel_w sel)%Q /\ (0 <= sel_h sel)%Q
    /\ sel_x sel = Qmin sx cx /\ sel_y sel = Qmin sy cy
    /\ (sel_x sel + sel_w sel == Qmax sx cx)%Q
    /\ (sel_y sel + sel_h sel == Qmax sy cy)%Q.
Proof.
  intros Hkey s' sx sy cx cy. subst s'.
  rewrite run_cons, dispatch_mouseDown. unfold handleMouseDown. rewrite Hkey.
  match goal with |- context [run _ ?st] => set (s1 := st) end.
  assert (H1 : selectingFrom sx sy s1).
  { split; [done|]. split; [done|]. eexists. by split. }
  unfold moveEvents. rewrite map_app, run_app.
  pose proof (selectingFrom_moves sx sy moves s1 H1) as H2.
  unfold moveEvents in H2.
  set (s2 := run (map (fun m : Move => EvMouseMove m.1 m.2) moves) s1) in *.
  destruct H2 as (Hd & Hm & sel & Hsel & Hx & Hy). clearbody s2.
  cbn [map run foldl fst snd]. rewrite dispatch_mouseMove.
  unfold handleMouseMove. rewrite Hd. cbn [negb].
  assert (Hbox : forall a b : Q,
            (0 <= Qabs (b - a))%Q
            /\ (Qmin a b + Qabs (b - a) == Qmax a b)%Q).
  { intros a b. split; [apply Qabs_nonneg|].
    destruct (Qlt_le_dec a b) as [Hlt|Hle].
    - rewrite Q.min_l, Q.max_r, Qabs_pos by lra. ring.
    - rewrite Q.min_r, Q.max_l, Qabs_neg by lra. ring. }
  fold cx cy.
  destruct (Qltb 5 _ || Qltb 5 _);
    unfold setDidDrag, setSelectionRect;
    cbn [dragModeRef selectionRect]; rewrite Hm; (case_decide; [done|]);
    cbn [dragModeRef selectionRect]; rewrite Hsel;
    eexists; (split; [reflexivity|]);
    cbn [startX startY sel_x sel_y sel_w sel_h]; rewrite Hx, Hy;
    repeat split; apply Hbox.
Qed.

(** An instance: down at (300, 200), over (350, 260), up to (120, 240). *)
Lemma selection_is_bounding_box_witness :
  let rect := mkRect 0 0 800 600 in
  let s' := run [EvMouseDown (Some rect) (mkMouse 300 200 false false);
                 EvMouseMove (Some rect) (mkMouse 350 260 false false);
                 EvMouseMove (Some rect) (mkMouse 120 240 false false)]
                initial in
  exists sel, selectionRect s' = Some sel
    /\ (sel_x sel == 120)%Q /\ (sel_y sel == 200)%Q
    /\ (sel_x sel + sel_w sel == 300)%Q /\ (sel_y sel + sel_h sel == 240)%Q.
Proof.
  intros rect s'.
  destruct (selection_is_bounding_box rect (mkMouse 300 200 false false)
              [(Some rect, mkMouse 350 260 false false)] rect
              (mkMouse 120 240 false false) initial)
    as (sel & Hsel & _ & _ & _ & _ & Hx & Hy & Hxw & Hyh); [reflexivity|].
  exists sel. split; [exact Hsel|].
  split; [rewrite Hx; reflexivity|]. split; [rewrite Hy; reflexivity|].
  split; [rewrite Hxw; reflexivity | rewrite Hyh; reflexivity].
Defined.

(** X13.  A pointer-up ends the gesture whichever branch it took: the
    selection rectangle and the drag mode are discarded and one drag-end
    timer is started; pointer-moves that arrive before that timer change
    neither the zoom, the pan nor the selection; and once the timer has
    run, dragging is off and pointer-moves change nothing at all. *)
Theorem pointer_up_ends_gesture (c : option DOMRect) (moves : list Move)
    (s : State) :
  isDragging s = true ->
  let s1 := dispatch (EvMouseUp c) s in
  let s2 := run (moveEvents moves) s1 in
  let s3 := dispatch EvDragEndTimeout s1 in
  selectionRect s1 = None /\ dragModeRef s1 = None
  /\ dragEndTimers s1 = S (dragEndTimers s)
  /\ zoom s2 = zoom s1 /\ pan s2 = pan s1 /\ selectionRect s2 = None
  /\ isDragging s3 = false
  /\ run (moveEvents moves) s3 = s3.
Proof.
  intros Hd s1 s2 s3.
  assert (H1 : selectionRect s1 = None /\ dragModeRef s1 = None
               /\ dragEndTimers s1 = S (dragEndTimers s)).
  { subst s1. rewrite dispatch_mouseUp, Hd. unfold handleMouseUp.
    destruct (selectionAccepted s), c; done. }
  destruct H1 as (Hsel & Hmode & Htm).
  assert (Hquiet : forall ms st,
            selectionRect st = None -> dragModeRef st = None ->
            let st' := run (moveEvents ms) st in
            zoom st' = zoom st /\ pan st' = pan st /\ selectionRect st' = None).
  { induction ms as [|m ms IH]; intros st Hs Hm st'; [done|].
    subst st'. unfold moveEvents. cbn [map]. rewrite run_cons.
    assert (Hstep : zoom (dispatch (EvMouseMove m.1 m.2) st) = zoom st
                    /\ pan (dispatch (EvMouseMove m.1 m.2) st) = pan st
                    /\ selectionRect (dispatch (EvMouseMove m.1 m.2) st) = None
                    /\ dragModeRef (dispatch (EvMouseMove m.1 m.2) st) = None).
    { rewrite dispatch_mouseMove. unfold handleMouseMove.
      destruct (negb (isDragging st)); [done|].
      destruct (_ || _); cbn; rewrite Hm; (case_decide; [done|]);
        destruct m.1; cbn; rewrite ?Hs; done. }
    destruct Hstep as (Ez & Ep & Es & Em).
    destruct (IH _ Es Em) as (Ez' & Ep' & Es').
    fold (moveEvents ms). rewrite Ez', Ep', Ez, Ep. done. }
  destruct (Hquiet moves s1 Hsel Hmode) as (Ez & Ep & Es).
  assert (H3 : isDragging s3 = false).
  { subst s3. rewrite dispatch_handle; cbn [handle]; unfold dragEndTimeout;
      rewrite Htm; done. }
  repeat split; try done.
  clear -H3. induction moves as [|m ms IH]; [done|].
  unfold moveEvents. cbn [map]. rewrite run_cons, dispatch_mouseMove.
  unfold handleMouseMove. rewrite H3. exact IH.
Qed.

(** An instance: a Ctrl-drag, its pointer-up, then a stray pointer-move. *)
Lemma pointer_up_ends_gesture_witness :
  let rect := mkRect 0 0 800 600 in
  let s := run [EvMouseDown (Some rect) (mkMouse 10 10 true false);
                EvMouseMove (Some rect) (mkMouse 50 40 true false)] initial in
  let s1 := dispatch (EvMouseUp (Some rect)) s in
  pan (run (moveEvents [(Some rect, mkMouse 500 400 true false)]) s1) = pan s1
  /\ isDragging (dispatch EvDragEndTimeout s1) = false.
Proof.
  intros rect s s1.
  destruct (pointer_up_ends_gesture (Some rect)
              [(Some rect, mkMouse 500 400 true false)] s)
    as (_ & _ & _ & _ & Hp & _ & Hd & _); [reflexivity|].
  split; [exact Hp | exact Hd].
Defined.

(** * Further properties of the thumbnail loading *)

Lemma records_refl api r : records api r r [].
Proof.
  split; [by rewrite app_nil_r|]. split; [done|]. by destruct r as [l []].
Qed.

Lemma records_trans api r1 r2 r3 n1 n2 :
  records api r1 r2 n1 -> records api r2 r3 n2 ->
  records api r1 r3 (n1 ++ n2).
Proof.
  intros (L1 & C1 & F1) (L2 & C2 & F2). split; [|split].
  - by rewrite L2, L1, app_assoc.
  - intros q. rewrite C2, C1.
    destruct (bool_decide_reflect (q ∈ n1)) as [H1|H1];
      destruct (bool_decide_reflect (q ∈ n2)) as [H2|H2];
      destruct (bool_decide_reflect (q ∈ n1 ++ n2)) as [H|H];
      rewrite elem_of_app in H; try tauto; by destruct (api q).
  - rewrite <- F1, <- F2. by destruct (r3.2).
Qed.

Lemma asks_dec docSelected closedPages closedCache page :
  {asks docSelected closedPages closedCache page}
  + {~ asks docSelected closedPages closedCache page}.
Proof.
  unfold asks.
  destruct docSelected; [|right; by intros []].
  destruct (Z_le_dec 1 page); [|right; intros (_ & ? & _); lia].
  destruct (Z_le_dec page closedPages); [|right; intros (_ & ? & _); lia].
  destruct (truthy_str (closedCache !! page)); [right; by intros (_ & _ & ?)|].
  left. repeat split; done.
Qed.

Section Records.
Variables (docSelected : bool) (api : Api) (closedPages : Z)
          (closedCache : gmap Z string).

Lemma fetchThumb_records (page : Z) (r : Run) :
  exists new,
    records api r
      (fetchThumb docSelected api closedPages closedCache page r).2 new
    /\ (asks docSelected closedPages closedCache page -> new = [page])
    /\ (~ asks docSelected closedPages closedCache page -> new = []).
Proof.
  unfold fetchThumb, asks.
  destruct docSelected; cbn [negb orb].
  2: { exists []. split; [apply records_refl|]. split; [by intros []|done]. }
  destruct (Z.ltb_spec page 1) as [Hlt|Hge]; cbn [orb].
  { exists []. split; [apply records_refl|]. split; [lia | done]. }
  destruct (Z.gtb_spec page closedPages) as [Hgt|Hle].
  { exists []. split; [apply records_refl|]. split; [lia | done]. }
  destruct (truthy_str (closedCache !! page)) eqn:Hseen.
  { exists []. split; [apply records_refl|]. split; [by intros (_ & _ & ?)|done]. }
  exists [page]. split; [|split; [done|intros H; destruct H; repeat split; lia]].
  destruct (api page) as [data|] eqn:Hapi; (split; [done|]); split;
    cbn [fst snd pageCache setPageCache]; try by destruct (r.2).
  - intros q. destruct (bool_decide_reflect (q ∈ [page])) as [Hq|Hq].
    + apply list_elem_of_singleton in Hq as ->. rewrite Hapi.
      apply lookup_insert_eq.
    + rewrite lookup_insert_ne; [done|].
      intros ->. apply Hq. constructor.
  - intros q. destruct (bool_decide_reflect (q ∈ [page])) as [Hq|Hq]; [|done].
    apply list_elem_of_singleton in Hq as ->. by rewrite Hapi.
Qed.

Lemma fetchEach_records (pages : list (option Z)) (r : Run) :
  exists new,
    records api r
      (fetchEach docSelected api closedPages closedCache pages r) new
    /\ Forall (fun q => Some q ∈ pages
                        /\ asks docSelected closedPages closedCache q) new
    /\ (forall p, Some p ∈ pages ->
        asks docSelected closedPages closedCache p -> p ∈ new).
Proof.
  revert r. induction pages as [|o pages IH]; intros r.
  { exists []. split; [apply records_refl|]. split; [constructor|].
    intros p Hin. by apply elem_of_nil in Hin. }
  cbn [fetchEach foldl].
  set (r1 := match o with
             | Some page =>
               if truthy o
               then (fetchThumb docSelected api closedPages closedCache page r).2
               else r
             | None => r
             end).
  assert (H1 : exists n1, records api r r1 n1
                 /\ Forall (fun q => Some q = o
                              /\ asks docSelected closedPages closedCache q) n1
                 /\ (forall p, Some p = o ->
                     asks docSelected closedPages closedCache p -> p ∈ n1)).
  { subst r1. destruct o as [page|].
    2: { exists []. split; [apply records_refl|]. split; [constructor | done]. }
    destruct (truthy (Some page)) eqn:Ht.
    - destruct (fetchThumb_records page r) as (n & Hr & Hyes & Hno).
      exists n. split; [exact Hr|].
      destruct (asks_dec docSelected closedPages closedCache page) as [Ha|Ha].
      + rewrite (Hyes Ha). split; [constructor; [done | constructor]|].
        intros p [= <-] _. constructor.
      + rewrite (Hno Ha). split; [constructor|].
        intros p [= <-] Hp. by destruct Ha.
    - exists []. split; [apply records_refl|]. split; [constructor|].
      intros p [= <-] (_ & Hr & _). cbn in Ht.
      destruct (Z.eqb_spec p 0); [lia | discriminate]. }
  destruct H1 as (n1 & Hr1 & Hf1 & Hm1).
  destruct (IH r1) as (n2 & Hr2 & Hf2 & Hm2).
  exists (n1 ++ n2). split; [exact (records_trans _ _ _ _ _ _ Hr1 Hr2)|].
  split.
  - apply Forall_app. split.
    + eapply Forall_impl; [exact Hf1|]. intros q [<- Ha]. split; [constructor|done].
    + eapply Forall_impl; [exact Hf2|]. intros q [Hin Ha].
      split; [by apply list_elem_of_further | done].
  - intros p Hin Ha. apply elem_of_app.
    apply elem_of_cons in Hin as [Ho|Hin]; [left | right]; auto.
Qed.
End Records.

Lemma loadThumbs_records (docSelected : bool) (api : Api)
    (closedCache : gmap Z string) (view : State) (r : Run) :
  exists new,
    records api r (loadThumbs docSelected api closedCache view r) new
    /\ (forall q, q ∈ new <->
        wanted view q /\ asks docSelected (totalPages view) closedCache q).
Proof.
  unfold loadThumbs, wanted. destruct (viewMode view).
  - set (fetch := fetchThumb docSelected api (totalPages view) closedCache).
    destruct (fetchThumb_records docSelected api (totalPages view) closedCache
                (currentPage view) r) as (n1 & R1 & Y1 & N1).
    fold fetch in R1.
    destruct (fetchThumb_records docSelected api (totalPages view) closedCache
                (currentPage view + 1) (fetch (currentPage view) r).2)
      as (n2 & R2 & Y2 & N2).
    fold fetch in R2.
    destruct (fetchThumb_records docSelected api (totalPages view) closedCache
                (currentPage view - 1)
                (fetch (currentPage view + 1) (fetch (currentPage view) r).2).2)
      as (n3 & R3 & Y3 & N3).
    fold fetch in R3.
    exists (n1 ++ n2 ++ n3).
    split; [exact (records_trans _ _ _ _ _ _ R1
                     (records_trans _ _ _ _ _ _ R2 R3))|].
    intros q. rewrite !elem_of_app.
    destruct (asks_dec docSelected (totalPages view) closedCache
                (currentPage view)) as [A1|A1];
      [rewrite (Y1 A1) | rewrite (N1 A1)];
      (destruct (asks_dec docSelected (totalPages view) closedCache
                   (currentPage view + 1)) as [A2|A2];
       [rewrite (Y2 A2) | rewrite (N2 A2)]);
      (destruct (asks_dec docSelected (totalPages view) closedCache
                   (currentPage view - 1)) as [A3|A3];
       [rewrite (Y3 A3) | rewrite (N3 A3)]);
      (split;
       [intros [H|[H|H]];
        first [apply list_elem_of_singleton in H as -> | by apply elem_of_nil in H];
        split; tauto
       |intros [[->|[->| ->]] Ha];
        [left | right; left | right; right];
        first [constructor | exfalso; tauto]]).
  - destruct (fetchEach_records docSelected api (totalPages view) closedCache
                [sp_left (getSpreadPages view (currentSpread view));
                 sp_right (getSpreadPages view (currentSpread view));
                 sp_left (getSpreadPages view (currentSpread view + 1));
                 sp_right (getSpreadPages view (currentSpread view + 1));
                 sp_left (getSpreadPages view (currentSpread view - 1));
                 sp_right (getSpreadPages view (currentSpread view - 1))] r)
      as (new & R & Hall & Hin).
    exists new. split; [exact R|]. intros q. split.
    + intros Hq. by apply (proj1 (Forall_forall _ _) Hall).
    + intros [Hw Ha]. by apply Hin.
Qed.

(** [setLoading] commutes with the frame of the cache. *)
Lemma setLoading_frame (cache : gmap Z string) (b : bool) (s t : State) :
  setPageCache cache t = s ->
  setLoading (loading s) (setPageCache cache (setLoading b t)) = s
  /\ loading (setLoading b t) = b.
Proof. intros <-. by destruct t. Qed.

(** A run of [loadPages]: the requests, the cache, the frame and the
    [loading] flag. *)
Lemma loadPages_records (docSelected : bool) (api : Api)
    (closedCache : gmap Z string) (view : State) (r : Run) :
  let r' := loadPages docSelected api closedCache view r in
  exists new,
    (r'.1 = r.1 ++ new
     /\ (forall q,
           pageCache r'.2 !! q
           = match (if bool_decide (q ∈ new) then api q else None) with
             | Some data => Some data
             | None => pageCache r.2 !! q
             end)
     /\ (setLoading (loading r.2) (setPageCache (pageCache r.2) r'.2) = r.2
         /\ loading r'.2 = false))
    /\ (forall q, q ∈ new <->
        wanted view q /\ asks docSelected (totalPages view) closedCache q).
Proof.
  intros r'. subst r'. unfold loadPages.
  destruct (loadThumbs_records docSelected api closedCache view r)
    as (new & (Hlog & Hcache & Hframe) & Hiff).
  exists new. split; [|exact Hiff]. cbn [fst snd].
  split; [exact Hlog|]. split; [exact Hcache|].
  by apply setLoading_frame.
Qed.

(** X14.  Which requests [loadPages] sends.  A page is requested exactly
    when it belongs to the view unit on screen or to one next to it, a
    document is selected, the page is in [1, totalPages], and the callback
    does not see it cached; so nothing is requested out of range, nothing
    without a document, and nothing the callback sees in the cache. *)
Theorem load_requests (docSelected : bool) (api : Api)
    (closedCache : gmap Z string) (view : State) (r : Run) :
  let r' := loadPages docSelected api closedCache view r in
  exists new,
    r'.1 = r.1 ++ new
    /\ (forall q, q ∈ new <->
        wanted view q /\ docSelected = true /\ 1 <= q <= totalPages view
        /\ truthy_str (closedCache !! q) = false)
    /\ (docSelected = false -> new = [])
    /\ (totalPages view <= 0 -> new = []).
Proof.
  intros r'. subst r'.
  destruct (loadPages_records docSelected api closedCache view r)
    as (new & (Hlog & _) & Hiff).
  exists new. split; [exact Hlog|]. split; [exact Hiff|].
  split; intros H; apply elem_of_nil_inv; intros q Hq;
    apply Hiff in Hq as (_ & Hd & Hr & _); [congruence | lia].
Qed.

(** An instance: the cover of a 10-page book with page 2 seen cached. *)
Lemma load_requests_witness :
  let api : Api := fun _ => Some "img"%string in
  let view := run [EvDocumentChange; EvInfoLoaded 10] initial in
  (loadPages true api {[2 := "old"%string]} view ([], view)).1 = [1; 3]
  /\ (loadPages false api ∅ view ([], view)).1 = [].
Proof.
  intros api view. split; [reflexivity|].
  destruct (load_requests false api ∅ view ([], view))
    as (new & Hlog & _ & Hnone & _).
  rewrite Hlog, (Hnone eq_refl). reflexivity.
Defined.

(** X15.  What [loadPages] does to the cache.  It changes nothing of the
    component state but the cache and the [loading] flag, which it
    clears; it drops no entry; a page it does not
    request keeps its entry; a page it requests, when the service answers,
    has the answer as its entry afterwards; so, when everything the
    callback sees cached is in the cache, every page of the view unit on
    screen or next to it that is in range and that the service answers
    has an entry afterwards. *)
Theorem load_fills_cache (docSelected : bool) (api : Api)
    (closedCache : gmap Z string) (view : State) (r : Run) :
  let r' := loadPages docSelected api closedCache view r in
  let requested q :=
    wanted view q /\ asks docSelected (totalPages view) closedCache q in
  setLoading (loading r.2) (setPageCache (pageCache r.2) r'.2) = r.2
  /\ loading r'.2 = false
  /\ (forall q, is_Some (pageCache r.2 !! q) -> is_Some (pageCache r'.2 !! q))
  /\ (forall q, ~ requested q -> pageCache r'.2 !! q = pageCache r.2 !! q)
  /\ (forall q data, requested q -> api q = Some data ->
      pageCache r'.2 !! q = Some data)
  /\ ((forall q, truthy_str (closedCache !! q) = true ->
                 is_Some (pageCache r.2 !! q)) ->
      forall q, docSelected = true -> wanted view q ->
                1 <= q <= totalPages view -> is_Some (api q) ->
                is_Some (pageCache r'.2 !! q)).
Proof.
  intros r' requested. subst r' requested. cbv beta.
  destruct (loadPages_records docSelected api closedCache view r)
    as (new & (Hlog & Hcache & Hframe & Hloading) & Hiff).
  split; [exact Hframe|]. split; [exact Hloading|].
  assert (Hkeep : forall q, is_Some (pageCache r.2 !! q) ->
            is_Some (pageCache (loadPages docSelected api closedCache view r).2
                     !! q)).
  { intros q Hq. rewrite Hcache.
    destruct (if bool_decide (q ∈ new) then api q else None); [by eexists|done]. }
  assert (Hput : forall q data,
            wanted view q /\ asks docSelected (totalPages view) closedCache q ->
            api q = Some data ->
            pageCache (loadPages docSelected api closedCache view r).2 !! q
            = Some data).
  { intros q data Hreq Hapi. rewrite Hcache.
    rewrite (bool_decide_eq_true_2 _ (proj2 (Hiff q) Hreq)), Hapi. done. }
  split; [exact Hkeep|]. split; [|split; [exact Hput|]].
  - intros q Hnot. rewrite Hcache.
    rewrite bool_decide_eq_false_2; [done|]. by rewrite Hiff.
  - intros Hsub q Hdoc Hw Hr [data Hapi].
    destruct (truthy_str (closedCache !! q)) eqn:Hseen.
    + apply Hkeep, Hsub, Hseen.
    + rewrite (Hput q data); [by eexists | | exact Hapi].
      split; [exact Hw|]. repeat split; try done; lia.
Qed.

(** An instance: page 5 of 10 in single mode, every request answered. *)
Lemma load_fills_cache_witness :
  let api : Api := fun _ => Some "img"%string in
  let view := setCurrentPage 5 (setViewMode single (setTotalPages 10 initial)) in
  let r' := loadPages true api ∅ view ([], view) in
  pageCache r'.2 !! 5 = Some "img"%string
  /\ is_Some (pageCache r'.2 !! 6) /\ pageCache r'.2 !! 7 = None.
Proof.
  intros api view r'.
  destruct (load_fills_cache true api ∅ view ([], view))
    as (_ & _ & _ & Hsame & Hput & Hall).
  split; [|split].
  - apply Hput; [|reflexivity]. split; [by left|].
    repeat split; vm_compute; first [reflexivity | discriminate].
  - apply Hall; [intros q; rewrite lookup_empty; discriminate | reflexivity
                | right; by left | vm_compute; split; discriminate | by eexists].
  - rewrite Hsame; [reflexivity|]. intros [Hw _].
    destruct Hw as [Hw|[Hw|Hw]]; vm_compute in Hw; discriminate.
Defined.

(** * Further properties of the rendering *)

(** X16.  Every spread of the book has a label.  For a document of
    [n >= 1] pages and a spread [s] in [0, totalSpreads - 1] the label is
    not empty: it is "Pág. 1" on the cover, "Págs. 2s-(2s+1)" when both
    pages exist and "Pág. 2s" when only the left one does; and a spread
    with neither page (one past the last) has the empty label. *)
Theorem spread_labels (n s : Z) :
  1 <= n -> 0 <= s ->
  let label := spreadPageLabelOf (getSpreadPagesOf n s) in
  (s <= totalSpreadsOf n - 1 -> label <> "")
  /\ (s = 0 -> label = "Pág. 1")
  /\ (1 <= s -> 2 * s + 1 <= n ->
      label = "Págs. " +:+ pretty (2 * s) +:+ "-" +:+ pretty (2 * s + 1))
  /\ (1 <= s -> 2 * s = n -> label = "Pág. " +:+ pretty (2 * s))
  /\ (totalSpreadsOf n <= s -> label = "").
Proof.
  intros Hn Hs label. subst label.
  pose proof (totalSpreadsOf_bounds n) as Hts.
  unfold getSpreadPagesOf.
  destruct (Z.eqb_spec s 0) as [->|Hne].
  { split; [by intros _|]. split; [done|]. repeat split; intros; lia. }
  replace (s * 2) with (2 * s) by lia.
  assert (Ht : forall q, 1 <= q -> truthy (Some q) = true).
  { intros q Hq. cbn. by destruct (Z.eqb_spec q 0); [lia|]. }
  destruct (Z.leb_spec (2 * s) n) as [Hl|Hl];
    destruct (Z.leb_spec (2 * s + 1) n) as [Hr|Hr]; try lia;
    unfold spreadPageLabelOf; cbn [sp_left sp_right];
    rewrite ?(Ht (2 * s)), ?(Ht (2 * s + 1)) by lia; cbn [andb].
  - split; [by intros _|]. split; [lia|]. split; [done|]. split; lia.
  - split; [by intros _|]. split; [lia|]. split; [lia|]. split; [done | lia].
  - split; [lia|]. split; [lia|]. split; [lia|]. split; [lia | done].
Qed.

(** An instance: spread 3 of a 10-page book. *)
Lemma spread_labels_witness :
  spreadPageLabelOf (getSpreadPagesOf 10 3) = "Págs. 6-7"
  /\ spreadPageLabelOf (getSpreadPagesOf 10 5) = "Pág. 10".
Proof.
  destruct (spread_labels 10 3) as (_ & _ & H3 & _); [lia | lia |].
  destruct (spread_labels 10 5) as (_ & _ & _ & H5 & _); [lia | lia |].
  split; [rewrite H3 by lia | rewrite H5 by lia]; reflexivity.
Defined.

(** X17.  The slot of a page in book mode.  No page number gives the
    blank slot; a page number with a payload in the cache gives the image
    with that payload, so a requested page shows its image once the
    service has answered; and a page whose request the service rejected,
    and that had no entry before, shows the progress spinner after
    [loadPages], like a page whose request is still under way. *)
Theorem failed_page_shows_spinner (docSelected : bool) (api : Api)
    (closedCache : gmap Z string) (view : State) (r : Run) (p : Z) :
  p <> 0 ->
  let r' := loadPages docSelected api closedCache view r in
  renderPageImage r'.2 None = SlotBlank
  /\ (forall data, data <> ""%string -> pageCache r'.2 !! p = Some data ->
      renderPageImage r'.2 (Some p) = SlotImage data p)
  /\ (api p = None -> pageCache r.2 !! p = None ->
      renderPageImage r'.2 (Some p) = SlotSpinner)
  /\ (forall data, data <> ""%string -> api p = Some data ->
      wanted view p -> asks docSelected (totalPages view) closedCache p ->
      renderPageImage r'.2 (Some p) = SlotImage data p).
Proof.
  intros Hp r'. subst r'.
  destruct (loadPages_records docSelected api closedCache view r)
    as (new & (Hlog & Hcache & Hframe) & Hiff).
  assert (Ht : truthy (Some p) = true).
  { cbn. by destruct (Z.eqb_spec p 0). }
  assert (Himg : forall data, data <> ""%string ->
            pageCache (loadPages docSelected api closedCache view r).2 !! p
            = Some data ->
            renderPageImage (loadPages docSelected api closedCache view r).2
              (Some p) = SlotImage data p).
  { intros data Hd E. unfold renderPageImage. rewrite Ht, E. cbn.
    by destruct (String.eqb_spec data ""). }
  split; [done|]. split; [exact Himg|]. split.
  - intros Hfail Hnone. unfold renderPageImage. rewrite Ht, Hcache, Hfail.
    destruct (bool_decide _); by rewrite Hnone.
  - intros data Hd Hapi Hw Ha. apply Himg; [exact Hd|].
    rewrite Hcache, (bool_decide_eq_true_2 _ (proj2 (Hiff p) (conj Hw Ha))).
    by rewrite Hapi.
Qed.

(** An instance: page 5 of 10 rejected, page 6 answered. *)
Lemma failed_page_shows_spinner_witness :
  let api : Api := fun page => if page =? 5 then None else Some "img"%string in
  let view := setCurrentPage 5 (setViewMode single (setTotalPages 10 initial)) in
  let r' := loadPages true api ∅ view ([], view) in
  renderPageImage r'.2 (Some 5) = SlotSpinner.
Proof.
  intros api view r'.
  destruct (failed_page_shows_spinner true api ∅ view ([], view) 5)
    as (_ & _ & Hspin & _); [discriminate|].
  apply Hspin; reflexivity.
Defined.
